(** * The image relay pipeline of relay/image_handler.go

    A shallow embedding of [ImageHelper] and [getImageCountAndSizeInfo].
    The handler is a straight-line program over a mutable request
    context and a set of collaborators that live in other packages
    (adaptors, helpers, the quota consumer).  The collaborators are an
    interface here; every call the handler makes to one of them is
    recorded in a trace, so that statements about "is invoked", "is never
    invoked" and "happens before" are statements about the trace.

    Logging ([logger.LogInfo], [logger.LogDebug]) and the [time.Now]
    checkpoints that only feed the log lines are left out: they have no
    influence on control flow, on the transport body, on the returned
    error or on the quota call. *)

From Stdlib Require Import ZArith Lia.
From stdpp Require Import base strings list gmap pretty.

Local Open Scope Z_scope.

(** ** Data model *)

(** A Go [[]byte] / [*bytes.Buffer] content. *)
Abbreviation bytes := (list Byte.byte).

(** A Go [error] value, identified with its message. *)
Abbreviation error := string.

(** [fmt.Errorf(prefix + "%w", err)] and friends: the message is the
    prefix followed by the formatted operand. *)
Definition Errorf (prefix operand : string) : error := prefix +:+ operand.

(** net/http status constants used by the handler. *)
Definition StatusOK : Z := 200.
Definition StatusBadRequest : Z := 400.
Definition StatusInternalServerError : Z := 500.

(** [types.ErrorCode]: the codes the handler names, and the ones only
    collaborators produce. *)
Inductive ErrorCode :=
  | ErrorCodeInvalidRequest
  | ErrorCodeChannelModelMappedError
  | ErrorCodeInvalidApiType
  | ErrorCodeReadRequestBodyFailed
  | ErrorCodeConvertRequestFailed
  | ErrorCodeChannelParamOverrideInvalid
  | ErrorCodeDoRequestFailed
  | ErrorCodeUpstream (code : string).

(** [types.NewAPIErrorOptions]: the one option the handler passes. *)
Inductive NewAPIErrorOptions := ErrOptionWithSkipRetry.

(** [*types.NewAPIError].  Package [types] is outside this file, so an
    error value is kept as the constructor call that built it, with the
    arguments the handler passed. *)
Inductive NewAPIError :=
  | NewError (err : error) (errorCode : ErrorCode)
             (ops : list NewAPIErrorOptions)
  | NewErrorWithStatusCode (err : error) (errorCode : ErrorCode)
             (statusCode : Z) (ops : list NewAPIErrorOptions)
  | NewOpenAIError (err : error) (errorCode : ErrorCode) (statusCode : Z).

(** Modelled from the spec: the accessors of package [types], which is
    not part of the sources at hand.  An APIError carries an error kind
    and a retry-eligibility flag; the kind is the code given at
    construction and the flag is set by the skip-retry option. *)
Definition GetErrorCode (e : NewAPIError) : ErrorCode :=
  match e with
  | NewError _ c _ | NewErrorWithStatusCode _ c _ _ | NewOpenAIError _ c _ => c
  end.

Definition hasSkipRetry (ops : list NewAPIErrorOptions) : bool :=
  existsb (fun o => match o with ErrOptionWithSkipRetry => true end) ops.

Definition IsSkipRetryError (e : NewAPIError) : bool :=
  match e with
  | NewError _ _ ops | NewErrorWithStatusCode _ _ _ ops => hasSkipRetry ops
  | NewOpenAIError _ _ _ => false
  end.

(** [dto.ImageRequest]: the fields the handler reads. [N] is an unsigned
    count. *)
Record ImageRequest := {
  Model : string;
  N : Z;
  Size : string;
  Quality : string;
}.

(** [info.Request], an interface value: either a [*dto.ImageRequest] or
    a value of another dynamic type (with its [%T] name). *)
Inductive RequestAny :=
  | AnyImageRequest (r : ImageRequest)
  | AnyOtherRequest (typeName : string).

(** [dto.Usage]. *)
Record Usage := {
  PromptTokens : Z;
  CompletionTokens : Z;
  TotalTokens : Z;
}.

Definition set_TotalTokens (v : Z) (u : Usage) : Usage :=
  {| PromptTokens := PromptTokens u;
     CompletionTokens := CompletionTokens u;
     TotalTokens := v |}.

Definition set_PromptTokens (v : Z) (u : Usage) : Usage :=
  {| PromptTokens := v;
     CompletionTokens := CompletionTokens u;
     TotalTokens := TotalTokens u |}.

(** [relaycommon.RelayInfo]: the fields the handler reads or writes. *)
Record RelayInfo := {
  TokenId : Z;
  UserId : Z;
  Request : RequestAny;
  ApiType : Z;
  PassThroughBodyEnabled : bool;      (* info.ChannelSetting.PassThroughBodyEnabled *)
  ParamOverride : gmap string string; (* map[string]interface{}, values as JSON text *)
  IsStream : bool;
}.

Definition set_IsStream (b : bool) (i : RelayInfo) : RelayInfo :=
  {| TokenId := TokenId i; UserId := UserId i; Request := Request i;
     ApiType := ApiType i; PassThroughBodyEnabled := PassThroughBodyEnabled i;
     ParamOverride := ParamOverride i; IsStream := b |}.

(** [multipart.FileHeader] and [multipart.Form]. *)
Record FileHeader := {
  Filename : string;
  FileSize : Z;                       (* FileHeader.Size, an int64 *)
}.

Record Form := {
  File : gmap string (list FileHeader);
}.

(** [*http.Response]: status and headers. *)
Record HttpResponse := {
  StatusCode : Z;
  Header : gmap string (list string);
}.

(** [http.Header.Get]: first value of the key, or the empty string. *)
Definition Header_Get (h : gmap string (list string)) (key : string) : string :=
  match h !! key with
  | Some (v :: _) => v
  | _ => ""
  end.

(** [*gin.Context]: the key store read by [c.GetString] and the parsed
    form [c.Request.MultipartForm]. *)
Record GinContext := {
  Keys : gmap string string;
  MultipartForm : option Form;
}.

(** [c.GetString]: the value of the key, or the empty string. *)
Definition GetString (c : GinContext) (key : string) : string :=
  default "" (Keys c !! key).

(** [model_setting.GlobalSettings]. *)
Record GlobalSettings := {
  PassThroughRequestEnabled : bool;
}.

(** The result of [adaptor.DoRequest], an [any]: the nil interface, a
    [*http.Response] (possibly a nil pointer), or something else. *)
Inductive ResponseAny :=
  | RespNil
  | RespHttp (p : option HttpResponse)
  | RespOther.

(** The usage result of [adaptor.DoResponse], an [any]: a [*dto.Usage]
    (possibly a nil pointer) or something else, the nil interface
    included. *)
Inductive UsageAny :=
  | UsagePtr (p : option Usage)
  | UsageOther.

(** ** Image upload metadata (lines 155-211) *)

(** Go's int64 arithmetic wraps around. *)
Definition wrap_int64 (z : Z) : Z := (z + 2 ^ 63) mod 2 ^ 64 - 2 ^ 63.

(** [mf.File[key]] with the comma-ok flag: a missing key reads as the
    nil slice. *)
Definition lookupFiles (f : gmap string (list FileHeader)) (key : string)
  : list FileHeader * bool :=
  match f !! key with
  | Some files => (files, true)
  | None => ([], false)
  end.

(** The [for fieldName, files := range mf.File] loop of lines 173-178,
    over the entries in the order the runtime happens to visit them. *)
Definition rangeStep (st : bool * list FileHeader)
    (entry : string * list FileHeader) : bool * list FileHeader :=
  if String.prefix "image[" entry.1 && (0 <? Z.of_nat (length entry.2))
  then (true, st.2 ++ entry.2)
  else st.

Definition rangeImageFields (entries : list (string * list FileHeader))
    (imageFiles : list FileHeader) : bool * list FileHeader :=
  fold_left rangeStep entries (false, imageFiles).

(** Lines 195-197. *)
Definition totalSizeOf (imageFiles : list FileHeader) : Z :=
  fold_left (fun total file => wrap_int64 (total + FileSize file)) imageFiles 0.

Section Formatting.
(** [fmt.Sprintf("%.1f", float64(total)/divisor)]: floating-point
    formatting stays a parameter. *)
Variable Sprintf_f1 : Z -> Z -> string.

(** Lines 199-208. *)
Definition formatSize (totalSize : Z) : string :=
  if 0 <? totalSize then
    if totalSize <? 1024 then pretty totalSize +:+ " B"
    else if totalSize <? 1024 * 1024 then Sprintf_f1 totalSize 1024 +:+ " KB"
    else Sprintf_f1 totalSize (1024 * 1024) +:+ " MB"
  else "".

(** Lines 187-210. *)
Definition countAndSize (imageFiles : list FileHeader) : Z * string :=
  if Z.of_nat (length imageFiles) =? 0 then (0, "")
  else (Z.of_nat (length imageFiles), formatSize (totalSizeOf imageFiles)).

(** Lines 164-210, for a form [mf] whose [File] map is ranged over in
    the order [entries]. *)
Definition imageInfoOfForm (entries : list (string * list FileHeader))
    (mf : Form) : Z * string :=
  let '(imageFiles, exists_) := lookupFiles (File mf) "image" in
  if negb exists_ || (Z.of_nat (length imageFiles) =? 0) then
    let '(imageFiles, exists_) := lookupFiles (File mf) "image[]" in
    if negb exists_ || (Z.of_nat (length imageFiles) =? 0) then
      let '(foundArrayImages, imageFiles) :=
        rangeImageFields entries imageFiles in
      if negb foundArrayImages && (Z.of_nat (length imageFiles) =? 0)
      then (0, "")
      else countAndSize imageFiles
    else countAndSize imageFiles
  else countAndSize imageFiles.
End Formatting.

(** *** The precedence rule in the specification's words *)

(** The file parts of the field with this exact name. *)
Definition fieldParts (mf : Form) (name : string) : list FileHeader :=
  default [] (File mf !! name).

(** The file parts of all fields whose name begins with "image[",
    merged. *)
Definition prefixedParts (entries : list (string * list FileHeader))
  : list FileHeader :=
  flat_map (fun entry => if String.prefix "image[" entry.1 then entry.2 else [])
           entries.

(** First match wins: "image", then "image[]", then the "image["
    fields together. *)
Definition imagePartsByPrecedence (mf : Form) : list FileHeader :=
  if (0 <? length (fieldParts mf "image"))%nat then fieldParts mf "image"
  else if (0 <? length (fieldParts mf "image[]"))%nat then fieldParts mf "image[]"
  else prefixedParts (map_to_list (File mf)).

(** The total byte size of a list of parts. *)
Definition sumSizes (parts : list FileHeader) : Z :=
  foldr (fun file acc => FileSize file + acc) 0 parts.

(** Count and formatted size of the matched parts; nothing matched
    gives count 0 and no size string.  The total is held in an int64. *)
Definition metadataOf (fmt : Z -> Z -> string) (parts : list FileHeader)
  : Z * string :=
  match parts with
  | [] => (0, "")
  | _ => (Z.of_nat (length parts), formatSize fmt (wrap_int64 (sumSizes parts)))
  end.

(** ** The handler's world *)

Section Pipeline.
(** [ExtState] is whatever the collaborators own and the handler never
    looks at (adaptor fields, the raw request, global tables);
    [Payload] is the dynamic type of a converted request that is not a
    [*bytes.Buffer]. *)
Context {ExtState Payload : Type}.

(** What the handler passes by pointer: the gin context [c], the
    relay info [info], and the rest of the world. *)
Record Store := {
  ctx : GinContext;
  info : RelayInfo;
  ext : ExtState;
}.

Definition set_info (i : RelayInfo) (s : Store) : Store :=
  {| ctx := ctx s; info := i; ext := ext s |}.

(** The result of [adaptor.ConvertImageRequest], an [any]. *)
Inductive Converted :=
  | ConvBuffer (buf : bytes)          (* case *bytes.Buffer *)
  | ConvValue (v : Payload).          (* default *)

(** [channel.Adaptor], the methods the handler calls.  Each one may
    update what it is handed by pointer. *)
Record Adaptor := {
  Init : Store -> Store;
  ConvertImageRequest : ImageRequest -> Store -> (error + Converted) * Store;
  DoRequest : bytes -> Store -> (error + ResponseAny) * Store;
  DoResponse : option HttpResponse -> Store ->
               (UsageAny * option NewAPIError) * Store;
}.

(** The collaborators from other packages, as functions of what the
    handler hands them.  [DeepCopy], [Marshal], [ApplyParamOverride],
    [GetAdaptor], [RelayErrorHandler] and [ResetStatusCode] receive
    neither [c] nor [info]; the others may update the store.
    [RelayErrorHandler] turns a failed raw response into an API error
    and [ResetStatusCode] returns the error it was given with its
    status adjusted (in Go it updates the error in place). *)
Record Externals := {
  InitChannelMeta : Store -> Store;
  DeepCopy : ImageRequest -> error + ImageRequest;
  ModelMappedHelper : ImageRequest -> Store -> (ImageRequest * option error) * Store;
  GetAdaptor : Z -> option Adaptor;
  GetGlobalSettings : ExtState -> GlobalSettings;
  GetRequestBody : Store -> (error + bytes) * Store;
  Marshal : Payload -> error + bytes;
  ApplyParamOverride : bytes -> gmap string string -> error + bytes;
  RelayErrorHandler : HttpResponse -> NewAPIError;
  ResetStatusCode : NewAPIError -> string -> NewAPIError;
  ParseMultipartForm : Store -> option error * Store;
  postConsumeQuota : Usage -> string -> Store -> Store;
  (* the conversion int(request.N); N is declared in package dto *)
  int_of_N : Z -> Z;
  (* fmt.Sprintf("%.1f", float64(total)/divisor) *)
  Sprintf_f1 : Z -> Z -> string;
}.

(** A call the handler makes to a collaborator, with the arguments
    the handler chose and the value the collaborator returned. *)
Inductive Event :=
  | EvInitChannelMeta
  | EvDeepCopy (r : ImageRequest) (ret : error + ImageRequest)
  | EvModelMappedHelper (r : ImageRequest) (ret : ImageRequest * option error)
  | EvGetAdaptor (apiType : Z) (found : bool)
  | EvInit
  | EvGetRequestBody (ret : error + bytes)
  | EvConvertImageRequest (r : ImageRequest) (ret : error + Converted)
  | EvMarshal (v : Payload) (ret : error + bytes)
  | EvApplyParamOverride (jsonData : bytes) (ov : gmap string string)
                         (ret : error + bytes)
  | EvDoRequest (requestBody : bytes) (ret : error + ResponseAny)
  | EvRelayErrorHandler (resp : HttpResponse) (ret : NewAPIError)
  | EvResetStatusCode (e : NewAPIError) (mapping : string) (ret : NewAPIError)
  | EvDoResponse (resp : option HttpResponse) (i : RelayInfo)
                 (ret : UsageAny * option NewAPIError)
  | EvParseMultipartForm (ret : option error)
  | EvPostConsumeQuota (u : Usage) (logContent : string).

(** How a run of the handler (or of one of its blocks) ends: it falls
    through with a value, returns an error, or panics (a failed type
    assertion or a nil dereference). *)
Inductive outcome (A : Type) :=
  | Done (a : A)
  | Fail (e : NewAPIError)
  | Panic.
Global Arguments Done {A} a.
Global Arguments Fail {A} e.
Global Arguments Panic {A}.

(** The handler monad: state, early return and a trace of calls. *)
Definition M (A : Type) : Type := Store -> outcome A * Store * list Event.

Global Instance M_ret : MRet M := fun A a s => (Done a, s, []).
Global Instance M_bind : MBind M := fun A B f m s =>
  match m s with
  | (Done a, s1, t1) =>
      match f a s1 with (o, s2, t2) => (o, s2, t1 ++ t2) end
  | (Fail e, s1, t1) => (Fail e, s1, t1)
  | (Panic, s1, t1) => (Panic, s1, t1)
  end.

Definition fail {A} (e : NewAPIError) : M A := fun s => (Fail e, s, []).
Definition panic {A} : M A := fun s => (Panic, s, []).
Definition get : M Store := fun s => (Done s, s, []).
Definition put (s' : Store) : M unit := fun _ => (Done tt, s', []).

(** A call that may update the store, and a call that does not. *)
Definition call {A} (ev : A -> Event) (f : Store -> A * Store) : M A :=
  fun s => match f s with (a, s') => (Done a, s', [ev a]) end.
Definition call_ (ev : Event) (f : Store -> Store) : M unit :=
  fun s => (Done tt, f s, [ev]).
Definition callp {A} (ev : A -> Event) (a : A) : M A :=
  fun s => (Done a, s, [ev a]).

Definition result_of {A} (r : outcome A * Store * list Event) := r.1.1.
Definition store_of {A} (r : outcome A * Store * list Event) := r.1.2.
Definition trace_of {A} (r : outcome A * Store * list Event) := r.2.
End Pipeline.

Global Arguments Store : clear implicits.
Global Arguments Converted : clear implicits.
Global Arguments Adaptor : clear implicits.
Global Arguments Externals : clear implicits.
Global Arguments Event : clear implicits.
Global Arguments M : clear implicits.

(** ** The handler *)

Definition isSome {A} (o : option A) : bool :=
  match o with Some _ => true | None => false end.

Section Handler.
Context {ExtState Payload : Type} (E : Externals ExtState Payload).

Local Abbreviation M := (M ExtState Payload).
Local Abbreviation Adaptor := (Adaptor ExtState Payload).

(** [getImageCountAndSizeInfo], lines 155-211.  The map is ranged over
    in the order of [map_to_list]; the result does not depend on that
    order (see [rangeImageFields_order]). *)
Definition getImageCountAndSizeInfo : M (Z * string) :=
  s ← get;
  match MultipartForm (ctx s) with
  | Some mf => mret (imageInfoOfForm (Sprintf_f1 E) (map_to_list (File mf)) mf)
  | None =>
      err ← call EvParseMultipartForm (ParseMultipartForm E);
      match err with
      | Some _ => mret (0, "")
      | None =>
          s' ← get;
          match MultipartForm (ctx s') with
          | Some mf =>
              mret (imageInfoOfForm (Sprintf_f1 E) (map_to_list (File mf)) mf)
          | None => panic
          end
      end
  end.

(** Lines 28-51: channel meta, type check, isolation copy, model
    mapping, adaptor lookup and initialisation. *)
Definition prepareRequest : M (ImageRequest * Adaptor) :=
  call_ EvInitChannelMeta (InitChannelMeta E);;
  s ← get;
  match Request (info s) with
  | AnyOtherRequest typeName =>
      fail (NewErrorWithStatusCode
              (Errorf "invalid request type, expected dto.ImageRequest, got " typeName)
              ErrorCodeInvalidRequest StatusBadRequest [ErrOptionWithSkipRetry])
  | AnyImageRequest imageReq =>
      r ← callp (EvDeepCopy imageReq) (DeepCopy E imageReq);
      match r with
      | inl err =>
          fail (NewError (Errorf "failed to copy request to ImageRequest: " err)
                  ErrorCodeInvalidRequest [ErrOptionWithSkipRetry])
      | inr request =>
          '(request, err) ← call (EvModelMappedHelper request)
                                 (ModelMappedHelper E request);
          match err with
          | Some err =>
              fail (NewError err ErrorCodeChannelModelMappedError
                      [ErrOptionWithSkipRetry])
          | None =>
              s ← get;
              a ← callp (fun a => EvGetAdaptor (ApiType (info s)) (isSome a))
                        (GetAdaptor E (ApiType (info s)));
              match a with
              | None =>
                  fail (NewError (Errorf "invalid api type: " (pretty (ApiType (info s))))
                          ErrorCodeInvalidApiType [ErrOptionWithSkipRetry])
              | Some adaptor =>
                  call_ EvInit (Init adaptor);;
                  mret (request, adaptor)
              end
          end
      end
  end.

(** The condition of line 55. *)
Definition passThrough (s : Store ExtState) : bool :=
  PassThroughRequestEnabled (GetGlobalSettings E (ext s))
  || PassThroughBodyEnabled (info s).

(** Lines 53-89: the transport body. *)
Definition buildRequestBody (adaptor : Adaptor) (request : ImageRequest)
  : M bytes :=
  s ← get;
  if passThrough s then
    r ← call EvGetRequestBody (GetRequestBody E);
    match r with
    | inl err =>
        fail (NewErrorWithStatusCode err ErrorCodeReadRequestBodyFailed
                StatusBadRequest [ErrOptionWithSkipRetry])
    | inr body => mret body
    end
  else
    r ← call (EvConvertImageRequest request) (ConvertImageRequest adaptor request);
    match r with
    | inl err => fail (NewError err ErrorCodeConvertRequestFailed [])
    | inr (ConvBuffer buf) => mret buf
    | inr (ConvValue v) =>
        j ← callp (EvMarshal v) (Marshal E v);
        match j with
        | inl err =>
            fail (NewError err ErrorCodeConvertRequestFailed
                    [ErrOptionWithSkipRetry])
        | inr jsonData =>
            s ← get;
            if 0 <? Z.of_nat (size (ParamOverride (info s))) then
              o ← callp (EvApplyParamOverride jsonData (ParamOverride (info s)))
                        (ApplyParamOverride E jsonData (ParamOverride (info s)));
              match o with
              | inl err =>
                  fail (NewError err ErrorCodeChannelParamOverrideInvalid
                          [ErrOptionWithSkipRetry])
              | inr jsonData => mret jsonData
              end
            else mret jsonData
        end
    end.

(** The right-hand side of line 105. *)
Definition streamFlag (i : RelayInfo) (httpResp : HttpResponse) : bool :=
  IsStream i
  || String.prefix "text/event-stream" (Header_Get (Header httpResp) "Content-Type").

(** The store after line 105. *)
Definition afterIntake (s : Store ExtState) (httpResp : HttpResponse)
  : Store ExtState :=
  set_info (set_IsStream (streamFlag (info s) httpResp) (info s)) s.

(** Lines 95-112: transport invocation and response intake. *)
Definition doRequest (adaptor : Adaptor) (requestBody : bytes)
    (statusCodeMappingStr : string) : M (option HttpResponse) :=
  r ← call (EvDoRequest requestBody) (DoRequest adaptor requestBody);
  match r with
  | inl err =>
      fail (NewOpenAIError err ErrorCodeDoRequestFailed StatusInternalServerError)
  | inr RespNil => mret None
  | inr RespOther => panic
  | inr (RespHttp None) => panic
  | inr (RespHttp (Some httpResp)) =>
      s ← get;
      put (afterIntake s httpResp);;
      if negb (StatusCode httpResp =? StatusOK) then
        newAPIError ← callp (EvRelayErrorHandler httpResp)
                            (RelayErrorHandler E httpResp);
        newAPIError ← callp (EvResetStatusCode newAPIError statusCodeMappingStr)
                            (ResetStatusCode E newAPIError statusCodeMappingStr);
        fail newAPIError
      else mret (Some httpResp)
  end.

(** Lines 114-119: response reconciliation. *)
Definition doResponse (adaptor : Adaptor) (httpResp : option HttpResponse)
    (statusCodeMappingStr : string) : M UsageAny :=
  s ← get;
  '(usage, newAPIError) ← call (EvDoResponse httpResp (info s))
                               (DoResponse adaptor httpResp);
  match newAPIError with
  | Some newAPIError =>
      newAPIError ← callp (EvResetStatusCode newAPIError statusCodeMappingStr)
                          (ResetStatusCode E newAPIError statusCodeMappingStr);
      fail newAPIError
  | None => mret usage
  end.

(** Lines 121-126. *)
Definition normalizeUsage (request : ImageRequest) (usage : Usage) : Usage :=
  let usage :=
    if TotalTokens usage =? 0
    then set_TotalTokens (int_of_N E (N request)) usage else usage in
  if PromptTokens usage =? 0
  then set_PromptTokens (int_of_N E (N request)) usage else usage.

(** Lines 128-131. *)
Definition qualityOf (request : ImageRequest) : string :=
  if String.eqb (Quality request) "hd" then "hd" else "standard".

(** Lines 138-147: the descriptor of a request with an explicit size,
    given the image count and size string of the inbound form. *)
Definition logContentOf (request : ImageRequest) (imageCount : Z)
    (imageSizeInfo : string) : string :=
  let logContent :=
    "大小 " +:+ Size request +:+ ", 品质 " +:+ qualityOf request
    +:+ ", 张数 " +:+ pretty (N request) in
  if 0 <? imageCount then
    let logContent := logContent +:+ ", 输入图片 " +:+ pretty imageCount +:+ " 张" in
    if negb (String.eqb imageSizeInfo "")
    then logContent +:+ " (" +:+ imageSizeInfo +:+ ")"
    else logContent
  else logContent.

(** Lines 136-148. *)
Definition describe (request : ImageRequest) : M string :=
  if 0 <? Z.of_nat (String.length (Size request)) then
    '(imageCount, imageSizeInfo) ← getImageCountAndSizeInfo;
    mret (logContentOf request imageCount imageSizeInfo)
  else mret "".

(** Lines 121-151: usage accounting. *)
Definition account (request : ImageRequest) (usage : UsageAny) : M unit :=
  match usage with
  | UsageOther => panic
  | UsagePtr None => panic
  | UsagePtr (Some usage) =>
      let usage := normalizeUsage request usage in
      logContent ← describe request;
      call_ (EvPostConsumeQuota usage logContent)
            (postConsumeQuota E usage logContent)
  end.

(** [ImageHelper], lines 24-152.  [Done tt] is the [return nil] of
    line 151. *)
Definition ImageHelper : M unit :=
  '(request, adaptor) ← prepareRequest;
  requestBody ← buildRequestBody adaptor request;
  s ← get;
  let statusCodeMappingStr := GetString (ctx s) "status_code_mapping" in
  httpResp ← doRequest adaptor requestBody statusCodeMappingStr;
  usage ← doResponse adaptor httpResp statusCodeMappingStr;
  account request usage.

(** Lines 95-151 on their own: what the handler does once the
    transport body and the status mapping are in hand. *)
Definition finishRequest (request : ImageRequest) (adaptor : Adaptor)
    (requestBody : bytes) (statusCodeMappingStr : string) : M unit :=
  httpResp ← doRequest adaptor requestBody statusCodeMappingStr;
  usage ← doResponse adaptor httpResp statusCodeMappingStr;
  account request usage.
End Handler.

(** ** The shapes a run can take

    For each block of the handler, the outcomes it can end in and the
    calls it makes on the way, read off the block's text.  The store is
    left out: these relations describe control flow only. *)

Section Shapes.
Context {ExtState Payload : Type} (E : Externals ExtState Payload).

Local Abbreviation Adaptor := (Adaptor ExtState Payload).
Local Abbreviation Event := (Event Payload).

(** An outcome that ends the whole handler. *)
Definition stopped {A} (o : outcome A) : option (outcome unit) :=
  match o with
  | Done _ => None
  | Fail e => Some (Fail e)
  | Panic => Some Panic
  end.

Inductive prepared : outcome (ImageRequest * Adaptor) -> list Event -> Prop :=
  | prepared_wrong_type typeName :
      prepared
        (Fail (NewErrorWithStatusCode
                 (Errorf "invalid request type, expected dto.ImageRequest, got " typeName)
                 ErrorCodeInvalidRequest StatusBadRequest [ErrOptionWithSkipRetry]))
        [EvInitChannelMeta]
  | prepared_copy_failed imageReq err :
      prepared
        (Fail (NewError (Errorf "failed to copy request to ImageRequest: " err)
                 ErrorCodeInvalidRequest [ErrOptionWithSkipRetry]))
        [EvInitChannelMeta; EvDeepCopy imageReq (inl err)]
  | prepared_mapping_failed imageReq copy request err :
      prepared
        (Fail (NewError err ErrorCodeChannelModelMappedError [ErrOptionWithSkipRetry]))
        [EvInitChannelMeta; EvDeepCopy imageReq (inr copy);
         EvModelMappedHelper copy (request, Some err)]
  | prepared_no_adaptor imageReq copy request apiType :
      GetAdaptor E apiType = None ->
      prepared
        (Fail (NewError (Errorf "invalid api type: " (pretty apiType))
                 ErrorCodeInvalidApiType [ErrOptionWithSkipRetry]))
        [EvInitChannelMeta; EvDeepCopy imageReq (inr copy);
         EvModelMappedHelper copy (request, None); EvGetAdaptor apiType false]
  | prepared_ok imageReq copy request apiType adaptor :
      GetAdaptor E apiType = Some adaptor ->
      prepared
        (Done (request, adaptor))
        [EvInitChannelMeta; EvDeepCopy imageReq (inr copy);
         EvModelMappedHelper copy (request, None); EvGetAdaptor apiType true;
         EvInit].

Inductive built (request : ImageRequest) : outcome bytes -> list Event -> Prop :=
  | built_raw_failed err :
      built request
        (Fail (NewErrorWithStatusCode err ErrorCodeReadRequestBodyFailed
                 StatusBadRequest [ErrOptionWithSkipRetry]))
        [EvGetRequestBody (inl err)]
  | built_raw body :
      built request (Done body) [EvGetRequestBody (inr body)]
  | built_convert_failed err :
      built request
        (Fail (NewError err ErrorCodeConvertRequestFailed []))
        [EvConvertImageRequest request (inl err)]
  | built_buffer buf :
      built request (Done buf)
        [EvConvertImageRequest request (inr (ConvBuffer buf))]
  | built_marshal_failed v err :
      built request
        (Fail (NewError err ErrorCodeConvertRequestFailed [ErrOptionWithSkipRetry]))
        [EvConvertImageRequest request (inr (ConvValue v)); EvMarshal v (inl err)]
  | built_serialized v jsonData :
      built request (Done jsonData)
        [EvConvertImageRequest request (inr (ConvValue v));
         EvMarshal v (inr jsonData)]
  | built_override_failed v jsonData ov err :
      built request
        (Fail (NewError err ErrorCodeChannelParamOverrideInvalid
                 [ErrOptionWithSkipRetry]))
        [EvConvertImageRequest request (inr (ConvValue v));
         EvMarshal v (inr jsonData);
         EvApplyParamOverride jsonData ov (inl err)]
  | built_patched v jsonData ov patched :
      built request (Done patched)
        [EvConvertImageRequest request (inr (ConvValue v));
         EvMarshal v (inr jsonData);
         EvApplyParamOverride jsonData ov (inr patched)].

Inductive transported (requestBody : bytes) (mapping : string)
  : outcome (option HttpResponse) -> list Event -> Prop :=
  | transported_failed err :
      transported requestBody mapping
        (Fail (NewOpenAIError err ErrorCodeDoRequestFailed StatusInternalServerError))
        [EvDoRequest requestBody (inl err)]
  | transported_nil :
      transported requestBody mapping (Done None)
        [EvDoRequest requestBody (inr RespNil)]
  | transported_other_type :
      transported requestBody mapping Panic
        [EvDoRequest requestBody (inr RespOther)]
  | transported_nil_pointer :
      transported requestBody mapping Panic
        [EvDoRequest requestBody (inr (RespHttp None))]
  | transported_non_success resp :
      StatusCode resp ≠ StatusOK ->
      transported requestBody mapping
        (Fail (ResetStatusCode E (RelayErrorHandler E resp) mapping))
        [EvDoRequest requestBody (inr (RespHttp (Some resp)));
         EvRelayErrorHandler resp (RelayErrorHandler E resp);
         EvResetStatusCode (RelayErrorHandler E resp) mapping
           (ResetStatusCode E (RelayErrorHandler E resp) mapping)]
  | transported_ok resp :
      StatusCode resp = StatusOK ->
      transported requestBody mapping (Done (Some resp))
        [EvDoRequest requestBody (inr (RespHttp (Some resp)))].

Inductive reconciled (httpResp : option HttpResponse) (mapping : string)
  : outcome UsageAny -> list Event -> Prop :=
  | reconciled_failed i usage e :
      reconciled httpResp mapping
        (Fail (ResetStatusCode E e mapping))
        [EvDoResponse httpResp i (usage, Some e);
         EvResetStatusCode e mapping (ResetStatusCode E e mapping)]
  | reconciled_ok i usage :
      reconciled httpResp mapping (Done usage)
        [EvDoResponse httpResp i (usage, None)].

Inductive described (request : ImageRequest)
  : outcome string -> list Event -> Prop :=
  | described_no_size :
      String.length (Size request) = 0%nat ->
      described request (Done "") []
  | described_form imageCount imageSizeInfo :
      String.length (Size request) ≠ 0%nat ->
      described request (Done (logContentOf request imageCount imageSizeInfo)) []
  | described_unparsed err :
      String.length (Size request) ≠ 0%nat ->
      described request (Done (logContentOf request 0 ""))
        [EvParseMultipartForm (Some err)]
  | described_parsed imageCount imageSizeInfo :
      String.length (Size request) ≠ 0%nat ->
      described request (Done (logContentOf request imageCount imageSizeInfo))
        [EvParseMultipartForm None]
  | described_no_form :
      described request Panic [EvParseMultipartForm None].

Inductive accounted (request : ImageRequest)
  : UsageAny -> outcome unit -> list Event -> Prop :=
  | accounted_other_type :
      accounted request UsageOther Panic []
  | accounted_nil_pointer :
      accounted request (UsagePtr None) Panic []
  | accounted_no_form usage t :
      described request Panic t ->
      accounted request (UsagePtr (Some usage)) Panic t
  | accounted_ok usage logContent t :
      described request (Done logContent) t ->
      accounted request (UsagePtr (Some usage)) (Done tt)
        (t ++ [EvPostConsumeQuota (normalizeUsage E request usage) logContent]).

(** Lines 95-151. *)
Inductive finished (request : ImageRequest) (requestBody : bytes)
    (mapping : string) : outcome unit -> list Event -> Prop :=
  | finished_in_transport o t3 r :
      transported requestBody mapping o t3 -> stopped o = Some r ->
      finished request requestBody mapping r t3
  | finished_in_reconciliation httpResp t3 o t4 r :
      transported requestBody mapping (Done httpResp) t3 ->
      reconciled httpResp mapping o t4 -> stopped o = Some r ->
      finished request requestBody mapping r (t3 ++ t4)
  | finished_in_accounting httpResp t3 usage t4 o t5 :
      transported requestBody mapping (Done httpResp) t3 ->
      reconciled httpResp mapping (Done usage) t4 ->
      accounted request usage o t5 ->
      finished request requestBody mapping o (t3 ++ t4 ++ t5).

(** Lines 24-152. *)
Inductive handled : outcome unit -> list Event -> Prop :=
  | handled_in_preparation o t1 r :
      prepared o t1 -> stopped o = Some r ->
      handled r t1
  | handled_in_building request adaptor t1 o t2 r :
      prepared (Done (request, adaptor)) t1 ->
      built request o t2 -> stopped o = Some r ->
      handled r (t1 ++ t2)
  | handled_after_building request adaptor t1 requestBody t2 mapping o t3 :
      prepared (Done (request, adaptor)) t1 ->
      built request (Done requestBody) t2 ->
      finished request requestBody mapping o t3 ->
      handled o (t1 ++ t2 ++ t3).
End Shapes.

(** ** Reading a trace *)

Section Traces.
Context {Payload : Type}.

Local Abbreviation Event := (Event Payload).

Definition countEv (p : Event -> bool) (tr : list Event) : nat :=
  length (List.filter p tr).

Definition isPostConsumeQuota (ev : Event) : bool :=
  match ev with EvPostConsumeQuota _ _ => true | _ => false end.
Definition isConvertImageRequest (ev : Event) : bool :=
  match ev with EvConvertImageRequest _ _ => true | _ => false end.
Definition isMarshal (ev : Event) : bool :=
  match ev with EvMarshal _ _ => true | _ => false end.
Definition isApplyParamOverride (ev : Event) : bool :=
  match ev with EvApplyParamOverride _ _ _ => true | _ => false end.
Definition isGetAdaptor (ev : Event) : bool :=
  match ev with EvGetAdaptor _ _ => true | _ => false end.
Definition isFailedLookup (ev : Event) : bool :=
  match ev with EvGetAdaptor _ false => true | _ => false end.
Definition isDoResponse (ev : Event) : bool :=
  match ev with EvDoResponse _ _ _ => true | _ => false end.
Definition isFailedDoResponse (ev : Event) : bool :=
  match ev with EvDoResponse _ _ (_, Some _) => true | _ => false end.
Definition isRelayErrorHandler (ev : Event) : bool :=
  match ev with EvRelayErrorHandler _ _ => true | _ => false end.
Definition isResetStatusCode (ev : Event) : bool :=
  match ev with EvResetStatusCode _ _ _ => true | _ => false end.
Definition isFailedCopy (ev : Event) : bool :=
  match ev with EvDeepCopy _ (inl _) => true | _ => false end.
Definition isFailedMapping (ev : Event) : bool :=
  match ev with EvModelMappedHelper _ (_, Some _) => true | _ => false end.

(** The quota calls of a trace, with their arguments. *)
Definition quotaCalls (tr : list Event) : list (Usage * string) :=
  omap (fun ev => match ev with
                  | EvPostConsumeQuota u logContent => Some (u, logContent)
                  | _ => None
                  end) tr.

(** The working copy of the request, as model mapping left it. *)
Definition mappedRequest (tr : list Event) : option ImageRequest :=
  head (omap (fun ev => match ev with
                        | EvModelMappedHelper _ (request, None) => Some request
                        | _ => None
                        end) tr).

(** The usage record the adaptor's reconciliation produced. *)
Definition adaptorUsage (tr : list Event) : option Usage :=
  head (omap (fun ev => match ev with
                        | EvDoResponse _ _ (UsagePtr (Some usage), None) => Some usage
                        | _ => None
                        end) tr).

(** The transport bodies handed to [DoRequest]. *)
Definition transportBodies (tr : list Event) : list bytes :=
  omap (fun ev => match ev with
                  | EvDoRequest requestBody _ => Some requestBody
                  | _ => None
                  end) tr.

(** The error kinds the handler itself constructs. *)
Definition handlerKinds : list ErrorCode :=
  [ErrorCodeInvalidRequest; ErrorCodeChannelModelMappedError;
   ErrorCodeInvalidApiType; ErrorCodeReadRequestBodyFailed;
   ErrorCodeConvertRequestFailed; ErrorCodeChannelParamOverrideInvalid;
   ErrorCodeDoRequestFailed].

(** The stage a call belongs to, in the order of the handler's text. *)
Definition stage (ev : Event) : nat :=
  match ev with
  | EvInitChannelMeta => 0
  | EvDeepCopy _ _ => 1
  | EvModelMappedHelper _ _ => 2
  | EvGetAdaptor _ _ => 3
  | EvInit => 4
  | EvGetRequestBody _ => 5
  | EvConvertImageRequest _ _ => 5
  | EvMarshal _ _ => 6
  | EvApplyParamOverride _ _ _ => 7
  | EvDoRequest _ _ => 8
  | EvRelayErrorHandler _ _ => 9
  | EvDoResponse _ _ _ => 9
  | EvResetStatusCode _ _ _ => 10
  | EvParseMultipartForm _ => 11
  | EvPostConsumeQuota _ _ => 12
  end%nat.

(** Strictly increasing stages: no call is repeated and no call of an
    earlier stage follows one of a later stage. *)
Fixpoint increasing (l : list nat) : bool :=
  match l with
  | x :: (y :: _) as l' => (x <? y)%nat && increasing l'
  | _ => true
  end.

Definition stagesInOrder (tr : list Event) : bool :=
  increasing (map stage tr).

(** Every parameter-override call takes as input the bytes that the
    serialization call right before it returned. *)
Fixpoint overridesPatchSerialized (serialized : option bytes)
    (tr : list Event) : Prop :=
  match tr with
  | [] => True
  | EvMarshal _ (inr jsonData) :: tr' =>
      overridesPatchSerialized (Some jsonData) tr'
  | EvApplyParamOverride jsonData _ _ :: tr' =>
      serialized = Some jsonData ∧ overridesPatchSerialized None tr'
  | _ :: tr' => overridesPatchSerialized None tr'
  end.
End Traces.

(** ** A small concrete world

    One adaptor, stateless collaborators, and switches for the failures
    the handler reacts to.  Used to run the handler on concrete inputs. *)

Module Demo.
(** A converted request that needs serialization: a list of fields,
    written as [k=v;] groups. *)
Definition Fields := list (string * string).

Definition render (fields : Fields) : string :=
  foldr (fun kv acc => kv.1 +:+ "=" +:+ kv.2 +:+ ";" +:+ acc) "" fields.

Definition toBytes (s : string) : bytes := String.list_byte_of_string s.

Record Switches := {
  copyFails : bool;
  mappingError : option error;
  registered : bool;
  globalPassThrough : bool;
  rawBody : error + bytes;
  converted : error + Converted Fields;
  marshalFails : bool;
  overrideFails : bool;
  response : error + ResponseAny;
  reconciled : UsageAny * option NewAPIError;
}.

(** The number of tenths in [total / divisor], rounded to the nearest
    tenth with ties going to the even one, as %.1f prints a
    non-negative quotient that float64 holds exactly (totals below
    2^53 over a power of two). *)
Definition roundTenths (total divisor : Z) : Z :=
  let tenths := (total * 10) `div` divisor in
  let rest := (total * 10) `mod` divisor in
  if 2 * rest <? divisor then tenths
  else if divisor <? 2 * rest then tenths + 1
  else if Z.even tenths then tenths else tenths + 1.

Definition withStatus (status : Z) (e : NewAPIError) : NewAPIError :=
  match e with
  | NewError err c ops => NewErrorWithStatusCode err c status ops
  | NewErrorWithStatusCode err c _ ops => NewErrorWithStatusCode err c status ops
  | NewOpenAIError err c _ => NewOpenAIError err c status
  end.

Definition adaptor (k : Switches) : Adaptor unit Fields := {|
  Init := fun s => s;
  ConvertImageRequest := fun _ s => (converted k, s);
  DoRequest := fun _ s => (response k, s);
  DoResponse := fun _ s => (reconciled k, s);
|}.

Definition world (k : Switches) : Externals unit Fields := {|
  InitChannelMeta := fun s => s;
  DeepCopy := fun r => if copyFails k then inl "copy failed" else inr r;
  ModelMappedHelper := fun r s => ((r, mappingError k), s);
  GetAdaptor := fun _ => if registered k then Some (adaptor k) else None;
  GetGlobalSettings := fun _ => {| PassThroughRequestEnabled := globalPassThrough k |};
  GetRequestBody := fun s => (rawBody k, s);
  Marshal := fun v => if marshalFails k then inl "marshal failed"
                      else inr (toBytes (render v));
  ApplyParamOverride := fun jsonData ov =>
    if overrideFails k then inl "override failed"
    else inr (jsonData ++ toBytes (render (map_to_list ov)));
  RelayErrorHandler := fun resp =>
    NewOpenAIError "bad response status" (ErrorCodeUpstream "bad_response_status_code")
                   (StatusCode resp);
  ResetStatusCode := fun e mapping =>
    if String.eqb mapping "" then e else withStatus 502 e;
  ParseMultipartForm := fun s => (Some "not a multipart request", s);
  postConsumeQuota := fun _ _ s => s;
  int_of_N := wrap_int64;
  Sprintf_f1 := fun total divisor =>
    pretty (roundTenths total divisor `div` 10) +:+ "."
    +:+ pretty (roundTenths total divisor `mod` 10);
|}.

Definition request : ImageRequest :=
  {| Model := "dall-e-3"; N := 2; Size := "1024x1024"; Quality := "hd" |}.

Definition form : Form :=
  {| File := {[ "image" := [ {| Filename := "a.png"; FileSize := 512 |} ];
                "image[]" := [ {| Filename := "b.png"; FileSize := 4096 |};
                               {| Filename := "c.png"; FileSize := 4096 |} ] ]} |}.

Definition arrayForm : Form :=
  {| File := {[ "image[0]" := [ {| Filename := "a.png"; FileSize := 1000 |} ];
                "image[1]" := [ {| Filename := "b.png"; FileSize := 1048 |} ];
                "mask" := [ {| Filename := "m.png"; FileSize := 77 |} ] ]} |}.

Definition store (passThroughChannel : bool) (overrides : gmap string string)
    (stream : bool) : Store unit :=
  {| ctx := {| Keys := {[ "status_code_mapping" := "{'429':'502'}" ]};
               MultipartForm := Some form |};
     info := {| TokenId := 7; UserId := 11; Request := AnyImageRequest request;
                ApiType := 1; PassThroughBodyEnabled := passThroughChannel;
                ParamOverride := overrides; IsStream := stream |};
     ext := tt |}.

Definition okResponse : HttpResponse :=
  {| StatusCode := 200;
     Header := {[ "Content-Type" := [ "application/json" ] ]} |}.

Definition streamResponse (status : Z) : HttpResponse :=
  {| StatusCode := status;
     Header := {[ "Content-Type" := [ "text/event-stream; charset=utf-8" ] ]} |}.

Definition zeroUsage : Usage :=
  {| PromptTokens := 0; CompletionTokens := 0; TotalTokens := 0 |}.

(** Everything succeeds: conversion to fields, serialization, a 200
    response, a usage record without token counts. *)
Definition healthy : Switches :=
  {| copyFails := false; mappingError := None; registered := true;
     globalPassThrough := false; rawBody := inr (toBytes "raw client body");
     converted := inr (ConvValue [("prompt", "a cat")]);
     marshalFails := false; overrideFails := false;
     response := inr (RespHttp (Some okResponse));
     reconciled := (UsagePtr (Some zeroUsage), None) |}.

Definition with_copyFails (b : bool) (k : Switches) : Switches :=
  {| copyFails := b; mappingError := mappingError k; registered := registered k;
     globalPassThrough := globalPassThrough k; rawBody := rawBody k;
     converted := converted k; marshalFails := marshalFails k;
     overrideFails := overrideFails k; response := response k;
     reconciled := reconciled k |}.
Definition with_mappingError (e : option error) (k : Switches) : Switches :=
  {| copyFails := copyFails k; mappingError := e; registered := registered k;
     globalPassThrough := globalPassThrough k; rawBody := rawBody k;
     converted := converted k; marshalFails := marshalFails k;
     overrideFails := overrideFails k; response := response k;
     reconciled := reconciled k |}.
Definition with_registered (b : bool) (k : Switches) : Switches :=
  {| copyFails := copyFails k; mappingError := mappingError k; registered := b;
     globalPassThrough := globalPassThrough k; rawBody := rawBody k;
     converted := converted k; marshalFails := marshalFails k;
     overrideFails := overrideFails k; response := response k;
     reconciled := reconciled k |}.
Definition with_converted (c : error + Converted Fields) (k : Switches) : Switches :=
  {| copyFails := copyFails k; mappingError := mappingError k;
     registered := registered k;
     globalPassThrough := globalPassThrough k; rawBody := rawBody k;
     converted := c; marshalFails := marshalFails k;
     overrideFails := overrideFails k; response := response k;
     reconciled := reconciled k |}.
Definition with_response (r : error + ResponseAny) (k : Switches) : Switches :=
  {| copyFails := copyFails k; mappingError := mappingError k;
     registered := registered k;
     globalPassThrough := globalPassThrough k; rawBody := rawBody k;
     converted := converted k; marshalFails := marshalFails k;
     overrideFails := overrideFails k; response := r;
     reconciled := reconciled k |}.
Definition with_reconciled (r : UsageAny * option NewAPIError) (k : Switches)
  : Switches :=
  {| copyFails := copyFails k; mappingError := mappingError k;
     registered := registered k;
     globalPassThrough := globalPassThrough k; rawBody := rawBody k;
     converted := converted k; marshalFails := marshalFails k;
     overrideFails := overrideFails k; response := response k;
     reconciled := r |}.

Definition overrides : gmap string string := {[ "seed" := "42" ]}.

(** The calls of lines 28-51 when nothing fails. *)
Definition preparedTrace : list (Event Fields) :=
  [EvInitChannelMeta; EvDeepCopy request (inr request);
   EvModelMappedHelper request (request, None); EvGetAdaptor 1 true; EvInit].

(** The calls of lines 53-89 on the serialization branch with the
    override applied, and the body they produce. *)
Definition patchedBody : bytes := toBytes "prompt=a cat;seed=42;".

Definition builtTrace : list (Event Fields) :=
  [EvConvertImageRequest request (inr (ConvValue [("prompt", "a cat")]));
   EvMarshal [("prompt", "a cat")] (inr (toBytes "prompt=a cat;"));
   EvApplyParamOverride (toBytes "prompt=a cat;") overrides (inr patchedBody)].

(** Variations of [healthy]. *)
Definition rawBuffer : Switches :=
  with_converted (inr (ConvBuffer (toBytes "custom wire body"))) healthy.
Definition conversionFails : Switches :=
  with_converted (inl "size not supported") healthy.
Definition unregistered : Switches := with_registered false healthy.
Definition unmappedUnregistered : Switches :=
  with_mappingError (Some "model not mapped") unregistered.
Definition uncopiedUnregistered : Switches := with_copyFails true unregistered.
Definition throttled : Switches :=
  with_response (inr (RespHttp (Some (streamResponse 429)))) healthy.
Definition streaming : Switches :=
  with_response (inr (RespHttp (Some (streamResponse 200)))) healthy.
Definition unreadable : Switches :=
  with_reconciled
    (UsageOther,
     Some (NewOpenAIError "bad response body" (ErrorCodeUpstream "bad_response_body")
             StatusInternalServerError)) healthy.
End Demo.

(** ** Further readings of a trace *)

Section MoreTraces.
Context {Payload : Type}.

Local Abbreviation Event := (Event Payload).

Definition isInit (ev : Event) : bool :=
  match ev with EvInit => true | _ => false end.
Definition isGetRequestBody (ev : Event) : bool :=
  match ev with EvGetRequestBody _ => true | _ => false end.
Definition isParseMultipartForm (ev : Event) : bool :=
  match ev with EvParseMultipartForm _ => true | _ => false end.
Definition isFailedParse (ev : Event) : bool :=
  match ev with EvParseMultipartForm (Some _) => true | _ => false end.

(** A call of one of the adaptor's capabilities other than [Init]. *)
Definition isAdaptorCall (ev : Event) : bool :=
  match ev with
  | EvConvertImageRequest _ _ | EvDoRequest _ _ | EvDoResponse _ _ _ => true
  | _ => false
  end.

(** The requests handed to [ConvertImageRequest]. *)
Definition convertedRequests (tr : list Event) : list ImageRequest :=
  omap (fun ev => match ev with
                  | EvConvertImageRequest request _ => Some request
                  | _ => None
                  end) tr.

(** The returns after which the handler panics: the type assertion of
    line 104 or the dereference of lines 105-106 on what [DoRequest]
    returned, the type assertion or dereference of line 121 on what
    [DoResponse] returned, and the dereference of line 168 when the
    form is still nil after a successful parse. *)
Definition panicCause (ev : Event) : bool :=
  match ev with
  | EvDoRequest _ (inr RespOther) => true
  | EvDoRequest _ (inr (RespHttp None)) => true
  | EvDoResponse _ _ (UsageOther, None) => true
  | EvDoResponse _ _ (UsagePtr None, None) => true
  | EvParseMultipartForm None => true
  | _ => false
  end.
End MoreTraces.

(** The descriptor of a request with an explicit size when the inbound
    form contributes nothing (line 138). *)
Definition baseLogContent (request : ImageRequest) : string :=
  "大小 " +:+ Size request +:+ ", 品质 " +:+ qualityOf request
  +:+ ", 张数 " +:+ pretty (N request).

(** ** More concrete inputs *)

Module Cases.
Import Demo.

Definition storeWith (r : RequestAny) (mf : option Form)
    (overrides : gmap string string) : Store unit :=
  {| ctx := {| Keys := ∅; MultipartForm := mf |};
     info := {| TokenId := 7; UserId := 11; Request := r;
                ApiType := 1; PassThroughBodyEnabled := false;
                ParamOverride := overrides; IsStream := false |};
     ext := tt |}.

Definition sizeless : ImageRequest :=
  {| Model := "dall-e-3"; N := 1; Size := ""; Quality := "HD" |}.

Definition countless : ImageRequest :=
  {| Model := "dall-e-3"; N := 0; Size := "512x512"; Quality := "" |}.

Definition emptyFiles : Form :=
  {| File := {[ "image" := [ {| Filename := "a.png"; FileSize := 0 |};
                             {| Filename := "b.png"; FileSize := 0 |} ] ]} |}.

Definition jsonResponse : HttpResponse :=
  {| StatusCode := 200; Header := ∅ |}.

Definition serializedBody : bytes := toBytes "prompt=a cat;".

Definition serializedTrace : list (Event Fields) :=
  [EvConvertImageRequest request (inr (ConvValue [("prompt", "a cat")]));
   EvMarshal [("prompt", "a cat")] (inr serializedBody)].

Definition refused : Switches := with_response (inl "connection refused") healthy.
Definition silent : Switches := with_response (inr RespNil) healthy.
Definition untyped : Switches := with_reconciled (UsageOther, None) healthy.
Definition headerless : Switches :=
  with_response (inr (RespHttp (Some jsonResponse))) healthy.
End Cases.

(** * Properties *)

(** ** Image upload metadata *)

Section ImageMetadata.
Variable fmt : Z -> Z -> string.

Lemma wrap_int64_add_l (x y : Z) :
  wrap_int64 (wrap_int64 x + y) = wrap_int64 (x + y).
Proof.
  unfold wrap_int64. f_equal.
  replace ((x + 2 ^ 63) `mod` 2 ^ 64 - 2 ^ 63 + y + 2 ^ 63)
    with ((x + 2 ^ 63) `mod` 2 ^ 64 + y) by lia.
  rewrite Zplus_mod_idemp_l. f_equal. lia.
Qed.

Lemma wrap_int64_small (z : Z) :
  - 2 ^ 63 <= z < 2 ^ 63 -> wrap_int64 z = z.
Proof.
  intros Hz. unfold wrap_int64. rewrite Z.mod_small; lia.
Qed.

(** The summing loop computes the sum, in int64. *)
Lemma fold_sizes (parts : list FileHeader) (total : Z) :
  fold_left (fun total file => wrap_int64 (total + FileSize file)) parts
            (wrap_int64 total)
  = wrap_int64 (total + sumSizes parts).
Proof.
  revert total. induction parts as [|file parts IH]; intros total; simpl.
  - f_equal. lia.
  - rewrite wrap_int64_add_l, IH. f_equal. lia.
Qed.

Lemma totalSizeOf_sum (parts : list FileHeader) :
  totalSizeOf parts = wrap_int64 (sumSizes parts).
Proof.
  unfold totalSizeOf.
  change 0 with (wrap_int64 0) at 1. by rewrite fold_sizes.
Qed.

Lemma sumSizes_app (l k : list FileHeader) :
  sumSizes (l ++ k) = sumSizes l + sumSizes k.
Proof. induction l as [|x l IH]; simpl; [done|]. unfold sumSizes in *. simpl. lia. Qed.

Lemma sumSizes_perm (l k : list FileHeader) :
  l ≡ₚ k -> sumSizes l = sumSizes k.
Proof.
  induction 1 as [|x l k _ IH|x y l|l k m _ IH1 _ IH2]; unfold sumSizes in *;
    simpl; lia.
Qed.

Lemma prefixedParts_perm (l k : list (string * list FileHeader)) :
  l ≡ₚ k -> prefixedParts l ≡ₚ prefixedParts k.
Proof.
  unfold prefixedParts.
  induction 1 as [|x l k _ IH|x y l|l k m _ IH1 _ IH2]; simpl.
  - done.
  - by rewrite IH.
  - rewrite !(assoc (++)). f_equiv. apply Permutation_app_comm.
  - by etrans.
Qed.

(** The count and the size string only depend on the parts up to
    their order. *)
Lemma countAndSize_perm (l k : list FileHeader) :
  l ≡ₚ k -> countAndSize fmt l = countAndSize fmt k.
Proof.
  intros Hp. unfold countAndSize.
  rewrite !totalSizeOf_sum, (sumSizes_perm _ _ Hp), (Permutation_length Hp).
  done.
Qed.

(** What the range loop leaves behind. *)
Lemma rangeImageFields_fold (entries : list (string * list FileHeader))
    (found : bool) (imageFiles : list FileHeader) :
  (fold_left rangeStep entries (found, imageFiles)).2
  = imageFiles ++ prefixedParts entries.
Proof.
  revert found imageFiles.
  induction entries as [|[name files] entries IH]; intros found imageFiles; simpl.
  - by rewrite app_nil_r.
  - unfold rangeStep at 2; simpl.
    destruct (String.prefix "image[" name); simpl.
    + destruct files as [|file files]; simpl.
      * by rewrite IH.
      * rewrite IH. by rewrite <- (assoc (++)).
    + by rewrite IH.
Qed.

(** The order in which the runtime ranges over the map does not
    matter. *)
Lemma rangeImageFields_order (l k : list (string * list FileHeader))
    (imageFiles : list FileHeader) :
  l ≡ₚ k ->
  countAndSize fmt (rangeImageFields l imageFiles).2
  = countAndSize fmt (rangeImageFields k imageFiles).2.
Proof.
  intros Hp. unfold rangeImageFields. rewrite !rangeImageFields_fold.
  apply countAndSize_perm. f_equiv. by apply prefixedParts_perm.
Qed.

(** Without overflow the int64 total is the sum itself. *)
Lemma totalSizeOf_no_overflow (parts : list FileHeader) :
  - 2 ^ 63 <= sumSizes parts < 2 ^ 63 -> totalSizeOf parts = sumSizes parts.
Proof. intros Hr. rewrite totalSizeOf_sum. by apply wrap_int64_small. Qed.

Lemma lookupFiles_fieldParts (mf : Form) (name : string) :
  (lookupFiles (File mf) name).1 = fieldParts mf name.
Proof. unfold lookupFiles, fieldParts. by destruct (File mf !! name). Qed.

Lemma lookupFiles_missing (mf : Form) (name : string) :
  (lookupFiles (File mf) name).2 = false -> fieldParts mf name = [].
Proof. unfold lookupFiles, fieldParts. by destruct (File mf !! name). Qed.

(** The lookups and the loop of lines 164-185 select the parts by the
    precedence rule. *)
Lemma imageInfoOfForm_parts (mf : Form) (entries : list (string * list FileHeader)) :
  entries ≡ₚ map_to_list (File mf) ->
  imageInfoOfForm fmt entries mf = countAndSize fmt (imagePartsByPrecedence mf).
Proof.
  intros Hp. unfold imageInfoOfForm, imagePartsByPrecedence.
  pose proof (lookupFiles_fieldParts mf "image") as H1.
  pose proof (lookupFiles_missing mf "image") as M1.
  pose proof (lookupFiles_fieldParts mf "image[]") as H2.
  pose proof (lookupFiles_missing mf "image[]") as M2.
  destruct (lookupFiles (File mf) "image") as [files1 ex1]; simpl in *.
  destruct (lookupFiles (File mf) "image[]") as [files2 ex2]; simpl in *.
  subst files1 files2.
  assert (Hthird : fieldParts mf "image[]" = [] ->
    (let '(foundArrayImages, imageFiles) :=
       rangeImageFields entries (fieldParts mf "image[]") in
     if negb foundArrayImages && (Z.of_nat (length imageFiles) =? 0)
     then (0, "") else countAndSize fmt imageFiles)
    = countAndSize fmt (prefixedParts (map_to_list (File mf)))).
  { intros Hnil.
    rewrite <- (countAndSize_perm _ _ (prefixedParts_perm _ _ Hp)).
    pose proof (rangeImageFields_fold entries false (fieldParts mf "image[]")) as Hf.
    unfold rangeImageFields.
    destruct (fold_left rangeStep entries (false, fieldParts mf "image[]"))
      as [found files]; simpl in Hf. subst files. rewrite Hnil. simpl.
    destruct (negb found && (Z.of_nat (length (prefixedParts entries)) =? 0)) eqn:Hc;
      [|done].
    apply andb_true_iff in Hc as [_ Hc]. unfold countAndSize. by rewrite Hc. }
  destruct (fieldParts mf "image") as [|f1 l1] eqn:E1; simpl.
  - rewrite orb_true_r.
    destruct (fieldParts mf "image[]") as [|f2 l2] eqn:E2; simpl.
    + rewrite orb_true_r. by apply Hthird.
    + destruct ex2; [done|]. by specialize (M2 eq_refl).
  - destruct ex1; [done|]. by specialize (M1 eq_refl).
Qed.

Lemma countAndSize_metadataOf (parts : list FileHeader) :
  countAndSize fmt parts = metadataOf fmt parts.
Proof.
  unfold countAndSize, metadataOf. rewrite totalSizeOf_sum.
  by destruct parts.
Qed.

(** C8.  Whatever order the runtime ranges over the form's fields in,
    the count and size string returned for a form are those of the
    parts chosen by first match: the parts of "image" if it has any,
    otherwise the parts of "image[]" if it has any, otherwise the
    parts of all fields named "image[..." taken together; with no
    part at all the result is count 0 and the empty string. *)
Theorem image_metadata_first_match (mf : Form)
    (entries : list (string * list FileHeader)) :
  entries ≡ₚ map_to_list (File mf) ->
  imageInfoOfForm fmt entries mf = metadataOf fmt (imagePartsByPrecedence mf).
Proof.
  intros Hp. rewrite <- countAndSize_metadataOf.
  by apply imageInfoOfForm_parts.
Qed.
(** *** More on the size string and the count *)

Lemma append_nonempty (s suffix : string) : suffix ≠ "" -> s +:+ suffix ≠ "".
Proof. intros Hs. by destruct s. Qed.

Lemma formatSize_not_positive (totalSize : Z) :
  totalSize <= 0 -> formatSize fmt totalSize = "".
Proof.
  intros Hz. unfold formatSize.
  by assert ((0 <? totalSize) = false) as -> by (apply Z.ltb_ge; lia).
Qed.

(** X1.  The size string is empty exactly when the int64 total is not
    positive.  A positive total below 1024 is printed in decimal with
    the unit B, a total below 1024 * 1024 with one decimal and the unit
    KB, and any larger total with one decimal and the unit MB. *)
Theorem formatSize_empty_iff (totalSize : Z) :
  (formatSize fmt totalSize = "" <-> totalSize <= 0)
  /\ (0 < totalSize ->
      (totalSize < 1024
       /\ formatSize fmt totalSize = pretty totalSize +:+ " B")
      \/ (1024 <= totalSize < 1024 * 1024
          /\ formatSize fmt totalSize = fmt totalSize 1024 +:+ " KB")
      \/ (1024 * 1024 <= totalSize
          /\ formatSize fmt totalSize = fmt totalSize (1024 * 1024) +:+ " MB")).
Proof.
  split.
  - split; [|apply formatSize_not_positive].
    unfold formatSize. destruct (0 <? totalSize) eqn:Hpos.
    + intros He. exfalso.
      destruct (totalSize <? 1024); [|destruct (totalSize <? 1024 * 1024)];
        by apply append_nonempty in He.
    + apply Z.ltb_ge in Hpos. done.
  - intros Hpos. unfold formatSize.
    assert ((0 <? totalSize) = true) as -> by (apply Z.ltb_lt; lia).
    destruct (totalSize <? 1024) eqn:Hb.
    + apply Z.ltb_lt in Hb. left. done.
    + apply Z.ltb_ge in Hb.
      destruct (totalSize <? 1024 * 1024) eqn:Hk.
      * apply Z.ltb_lt in Hk. right; left. done.
      * apply Z.ltb_ge in Hk. right; right. done.
Qed.

Lemma metadataOf_count (parts : list FileHeader) :
  (metadataOf fmt parts).1 = Z.of_nat (length parts).
Proof. by destruct parts. Qed.

(** X2.  The count returned for a form is the number of parts chosen
    by first match, so it is never negative; it is 0 exactly when no
    part was chosen, and then the size string is empty. *)
Theorem image_count_and_size_agree (mf : Form)
    (entries : list (string * list FileHeader)) :
  entries ≡ₚ map_to_list (File mf) ->
  (imageInfoOfForm fmt entries mf).1
  = Z.of_nat (length (imagePartsByPrecedence mf))
  /\ 0 <= (imageInfoOfForm fmt entries mf).1
  /\ ((imageInfoOfForm fmt entries mf).1 = 0 <-> imagePartsByPrecedence mf = [])
  /\ ((imageInfoOfForm fmt entries mf).1 = 0 ->
      (imageInfoOfForm fmt entries mf).2 = "").
Proof.
  intros Hp. rewrite (imageInfoOfForm_parts _ _ Hp), countAndSize_metadataOf.
  rewrite metadataOf_count. split_and!; [done|lia| |].
  - destruct (imagePartsByPrecedence mf); simpl; split; (done || lia).
  - destruct (imagePartsByPrecedence mf); simpl; [done|lia].
Qed.

(** X3.  Parts are counted even when their sizes add up to nothing (or
    to a total that is not positive as an int64): the count is the
    number of chosen parts and the size string is empty. *)
Theorem sizeless_parts_are_counted (mf : Form)
    (entries : list (string * list FileHeader)) :
  entries ≡ₚ map_to_list (File mf) ->
  wrap_int64 (sumSizes (imagePartsByPrecedence mf)) <= 0 ->
  imageInfoOfForm fmt entries mf
  = (Z.of_nat (length (imagePartsByPrecedence mf)), "").
Proof.
  intros Hp Hz. rewrite (imageInfoOfForm_parts _ _ Hp), countAndSize_metadataOf.
  unfold metadataOf. destruct (imagePartsByPrecedence mf) as [|f l]; [done|].
  f_equal. by apply formatSize_not_positive.
Qed.

Lemma prefixedParts_other (name : string) (files : list FileHeader)
    (l : list (string * list FileHeader)) :
  String.prefix "image[" name = false ->
  prefixedParts ((name, files) :: l) = prefixedParts l.
Proof. intros Hn. unfold prefixedParts; simpl. by rewrite Hn. Qed.

Lemma prefixedParts_insert_other (m : gmap string (list FileHeader))
    (name : string) (files : list FileHeader) :
  String.prefix "image[" name = false ->
  prefixedParts (map_to_list (<[name:=files]> m)) ≡ₚ prefixedParts (map_to_list m).
Proof.
  intros Hn.
  assert (Hins : prefixedParts (map_to_list (<[name:=files]> m))
                 ≡ₚ prefixedParts (map_to_list (delete name m))).
  { rewrite <- (insert_delete_eq m).
    rewrite (prefixedParts_perm _ _
               (map_to_list_insert (delete name m) name files
                  (lookup_delete_eq m name))).
    by rewrite prefixedParts_other. }
  rewrite Hins. destruct (m !! name) as [old|] eqn:Hl.
  - rewrite <- (insert_delete_id m name old Hl) at 2.
    rewrite (prefixedParts_perm _ _
               (map_to_list_insert (delete name m) name old
                  (lookup_delete_eq m name))).
    by rewrite prefixedParts_other.
  - by rewrite delete_id.
Qed.

(** X4.  A field that is not named "image" and whose name does not
    begin with "image[" never changes the result, whatever parts it
    holds. *)
Theorem unrelated_fields_are_ignored (mf : Form) (name : string)
    (files : list FileHeader) (entries entries' : list (string * list FileHeader)) :
  name ≠ "image" ->
  String.prefix "image[" name = false ->
  entries ≡ₚ map_to_list (<[name:=files]> (File mf)) ->
  entries' ≡ₚ map_to_list (File mf) ->
  imageInfoOfForm fmt entries {| File := <[name:=files]> (File mf) |}
  = imageInfoOfForm fmt entries' mf.
Proof.
  intros Hn Hpre Hp Hp'.
  rewrite (imageInfoOfForm_parts {| File := <[name:=files]> (File mf) |} _ Hp).
  rewrite (imageInfoOfForm_parts _ _ Hp').
  assert (Hn' : name ≠ "image[]") by (intros ->; discriminate Hpre).
  unfold imagePartsByPrecedence, fieldParts; simpl.
  rewrite !lookup_insert_ne by done.
  destruct (0 <? length (default [] (File mf !! "image")))%nat; [done|].
  destruct (0 <? length (default [] (File mf !! "image[]")))%nat; [done|].
  apply countAndSize_perm. by apply prefixedParts_insert_other.
Qed.

(** X19.  The summing loop of lines 195-197 wraps around like int64
    addition does; when the exact sum of the sizes fits in an int64 -
    as it does for real uploads - the total is that sum. *)
Theorem total_size_is_exact_without_overflow (parts : list FileHeader) :
  - 2 ^ 63 <= sumSizes parts < 2 ^ 63 ->
  totalSizeOf parts = sumSizes parts
  /\ formatSize fmt (totalSizeOf parts) = formatSize fmt (sumSizes parts).
Proof.
  intros Hr. rewrite totalSizeOf_sum, wrap_int64_small by done. done.
Qed.
End ImageMetadata.

(** ** Every run has one of the shapes *)

Section Runs.
Context {ExtState Payload : Type} (E : Externals ExtState Payload).

Local Abbreviation Adaptor := (Adaptor ExtState Payload).

Ltac unfold_monad :=
  unfold mbind, M_bind, mret, M_ret, call, call_, callp, fail, panic, get, put.

Ltac split_run :=
  repeat (case_match; simplify_eq/=).

Lemma bind_run {A B} (m : M ExtState Payload A) (f : A -> M ExtState Payload B)
    (s : Store ExtState) :
  (m ≫= f) s =
  match m s with
  | (Done a, s1, t1) => match f a s1 with (o, s2, t2) => (o, s2, t1 ++ t2) end
  | (Fail e, s1, t1) => (Fail e, s1, t1)
  | (Panic, s1, t1) => (Panic, s1, t1)
  end.
Proof. reflexivity. Qed.

Lemma prepareRequest_prepared (s s1 : Store ExtState) o t1 :
  prepareRequest E s = (o, s1, t1) -> prepared E o t1.
Proof.
  unfold prepareRequest. unfold_monad. intros H. split_run;
    eauto using prepared.
Qed.

Lemma buildRequestBody_built adaptor request (s s1 : Store ExtState) o t :
  buildRequestBody E adaptor request s = (o, s1, t) -> built request o t.
Proof.
  unfold buildRequestBody. unfold_monad. intros H. split_run;
    eauto using built.
Qed.

Lemma doRequest_transported adaptor requestBody mapping (s s1 : Store ExtState) o t :
  doRequest E adaptor requestBody mapping s = (o, s1, t) ->
  transported E requestBody mapping o t.
Proof.
  unfold doRequest. unfold_monad. intros H. split_run;
    try (constructor; done).
  - apply transported_non_success. unfold StatusOK in *. lia.
  - apply transported_ok. unfold StatusOK in *. lia.
Qed.

Lemma doResponse_reconciled adaptor httpResp mapping (s s1 : Store ExtState) o t :
  doResponse E adaptor httpResp mapping s = (o, s1, t) ->
  reconciled E httpResp mapping o t.
Proof.
  unfold doResponse. unfold_monad. intros H. split_run; eauto using reconciled.
Qed.

Lemma describe_described request (s s1 : Store ExtState) o t :
  describe E request s = (o, s1, t) -> described request o t.
Proof.
  unfold describe, getImageCountAndSizeInfo. unfold_monad. intros H.
  split_run; try (constructor; lia).
Qed.

Lemma account_accounted request usage (s s1 : Store ExtState) o t :
  account E request usage s = (o, s1, t) -> accounted E request usage o t.
Proof.
  unfold account. intros H.
  destruct usage as [[usage|]|]; try (unfold panic in H; simplify_eq; constructor).
  rewrite bind_run in H.
  destruct (describe E request s) as [[od sd] td] eqn:Hd.
  apply describe_described in Hd.
  destruct od; unfold call_ in H; simplify_eq/=.
  - by apply accounted_ok.
  - inversion Hd.
  - by apply accounted_no_form.
Qed.

Lemma finishRequest_finished request adaptor requestBody mapping
    (s s1 : Store ExtState) o t :
  finishRequest E request adaptor requestBody mapping s = (o, s1, t) ->
  finished E request requestBody mapping o t.
Proof.
  unfold finishRequest. rewrite bind_run. intros H.
  destruct (doRequest E adaptor requestBody mapping s) as [[o3 s3] t3] eqn:H3.
  apply doRequest_transported in H3.
  destruct o3 as [httpResp| |]; simplify_eq;
    [|by eapply finished_in_transport..].
  rewrite bind_run in H.
  destruct (doResponse E adaptor httpResp mapping s3) as [[o4 s4] t4] eqn:H4.
  apply doResponse_reconciled in H4.
  destruct o4 as [usage| |]; simplify_eq;
    [|by eapply finished_in_reconciliation..].
  destruct (account E request usage s4) as [[o5 s5] t5] eqn:H5.
  apply account_accounted in H5. simplify_eq.
  by eapply finished_in_accounting.
Qed.

(** The handler is its four blocks in sequence. *)
Lemma ImageHelper_blocks (s : Store ExtState) :
  ImageHelper E s =
  match prepareRequest E s with
  | (Done (request, adaptor), s1, t1) =>
      match buildRequestBody E adaptor request s1 with
      | (Done requestBody, s2, t2) =>
          match finishRequest E request adaptor requestBody
                  (GetString (ctx s2) "status_code_mapping") s2 with
          | (o, s3, t3) => (o, s3, t1 ++ t2 ++ t3)
          end
      | (Fail e, s2, t2) => (Fail e, s2, t1 ++ t2)
      | (Panic, s2, t2) => (Panic, s2, t1 ++ t2)
      end
  | (Fail e, s1, t1) => (Fail e, s1, t1)
  | (Panic, s1, t1) => (Panic, s1, t1)
  end.
Proof.
  unfold ImageHelper, finishRequest. rewrite bind_run.
  destruct (prepareRequest E s) as [[[[request adaptor]| |] s1] t1]; [|done..].
  rewrite bind_run.
  destruct (buildRequestBody E adaptor request s1) as [[[requestBody| |] s2] t2];
    [|done..].
  rewrite bind_run. unfold get at 1.
  match goal with
  | |- context [mbind ?f ?m s2] => destruct (mbind f m s2) as [[o s3] t3]
  end.
  done.
Qed.

Theorem ImageHelper_handled (s : Store ExtState) :
  handled E (result_of (ImageHelper E s)) (trace_of (ImageHelper E s)).
Proof.
  rewrite ImageHelper_blocks.
  destruct (prepareRequest E s) as [[o1 s1] t1] eqn:H1.
  apply prepareRequest_prepared in H1.
  destruct o1 as [[request adaptor]| |];
    [|by eapply handled_in_preparation..].
  destruct (buildRequestBody E adaptor request s1) as [[o2 s2] t2] eqn:H2.
  apply buildRequestBody_built in H2.
  destruct o2 as [requestBody| |];
    [|by eapply handled_in_building..].
  destruct (finishRequest E request adaptor requestBody
              (GetString (ctx s2) "status_code_mapping") s2)
    as [[o3 s3] t3] eqn:H3.
  apply finishRequest_finished in H3.
  by eapply handled_after_building.
Qed.

Ltac shapes :=
  repeat match goal with
  | H : stopped (Done _) = Some _ |- _ => discriminate H
  | H : stopped (Fail _) = Some _ |- _ => injection H as <-
  | H : stopped Panic = Some _ |- _ => injection H as <-
  | H : handled _ _ _ |- _ => inversion H; subst; clear H
  | H : finished _ _ _ _ _ _ |- _ => inversion H; subst; clear H
  | H : prepared _ _ _ |- _ => inversion H; subst; clear H
  | H : built _ _ _ |- _ => inversion H; subst; clear H
  | H : transported _ _ _ _ _ |- _ => inversion H; subst; clear H
  | H : reconciled _ _ _ _ _ |- _ => inversion H; subst; clear H
  | H : accounted _ _ _ _ _ |- _ => inversion H; subst; clear H
  | H : described _ _ _ |- _ => inversion H; subst; clear H
  end.

Ltac all_runs s :=
  pose proof (ImageHelper_handled s) as Hrun;
  destruct (ImageHelper E s) as [[o s'] tr];
  unfold result_of, trace_of, store_of in *; simpl in *;
  shapes; simpl.

(** *** Running the blocks forward *)

Lemma buildRequestBody_passThrough adaptor request (s : Store ExtState) :
  passThrough E s = true ->
  buildRequestBody E adaptor request s =
  match GetRequestBody E s with
  | (inl err, s') =>
      (Fail (NewErrorWithStatusCode err ErrorCodeReadRequestBodyFailed
               StatusBadRequest [ErrOptionWithSkipRetry]),
       s', [EvGetRequestBody (inl err)])
  | (inr body, s') => (Done body, s', [EvGetRequestBody (inr body)])
  end.
Proof.
  intros Hp. unfold buildRequestBody. unfold_monad. rewrite Hp.
  by destruct (GetRequestBody E s) as [[err|body] s'].
Qed.

Lemma buildRequestBody_convert adaptor request (s : Store ExtState) :
  passThrough E s = false ->
  buildRequestBody E adaptor request s =
  match ConvertImageRequest adaptor request s with
  | (inl err, s') =>
      (Fail (NewError err ErrorCodeConvertRequestFailed []), s',
       [EvConvertImageRequest request (inl err)])
  | (inr (ConvBuffer buf), s') =>
      (Done buf, s', [EvConvertImageRequest request (inr (ConvBuffer buf))])
  | (inr (ConvValue v), s') =>
      match Marshal E v with
      | inl err =>
          (Fail (NewError err ErrorCodeConvertRequestFailed [ErrOptionWithSkipRetry]),
           s', [EvConvertImageRequest request (inr (ConvValue v));
                EvMarshal v (inl err)])
      | inr jsonData =>
          if 0 <? Z.of_nat (size (ParamOverride (info s'))) then
            match ApplyParamOverride E jsonData (ParamOverride (info s')) with
            | inl err =>
                (Fail (NewError err ErrorCodeChannelParamOverrideInvalid
                         [ErrOptionWithSkipRetry]),
                 s', [EvConvertImageRequest request (inr (ConvValue v));
                      EvMarshal v (inr jsonData);
                      EvApplyParamOverride jsonData (ParamOverride (info s'))
                        (inl err)])
            | inr patched =>
                (Done patched,
                 s', [EvConvertImageRequest request (inr (ConvValue v));
                      EvMarshal v (inr jsonData);
                      EvApplyParamOverride jsonData (ParamOverride (info s'))
                        (inr patched)])
            end
          else
            (Done jsonData, s',
             [EvConvertImageRequest request (inr (ConvValue v));
              EvMarshal v (inr jsonData)])
      end
  end.
Proof.
  intros Hp. unfold buildRequestBody. unfold_monad. rewrite Hp.
  destruct (ConvertImageRequest adaptor request s) as [[err|[buf|v]] s'];
    simpl; try done.
  destruct (Marshal E v) as [err|jsonData]; simpl; [done|].
  destruct (0 <? Z.of_nat (size (ParamOverride (info s')))); simpl; [|done].
  by destruct (ApplyParamOverride E jsonData (ParamOverride (info s'))).
Qed.

Lemma doRequest_response adaptor requestBody mapping (s s3 : Store ExtState)
    (httpResp : HttpResponse) :
  DoRequest adaptor requestBody s = (inr (RespHttp (Some httpResp)), s3) ->
  doRequest E adaptor requestBody mapping s =
  if StatusCode httpResp =? StatusOK then
    (Done (Some httpResp), afterIntake s3 httpResp,
     [EvDoRequest requestBody (inr (RespHttp (Some httpResp)))])
  else
    (Fail (ResetStatusCode E (RelayErrorHandler E httpResp) mapping),
     afterIntake s3 httpResp,
     [EvDoRequest requestBody (inr (RespHttp (Some httpResp)));
      EvRelayErrorHandler httpResp (RelayErrorHandler E httpResp);
      EvResetStatusCode (RelayErrorHandler E httpResp) mapping
        (ResetStatusCode E (RelayErrorHandler E httpResp) mapping)]).
Proof.
  intros Hr. unfold doRequest. unfold_monad. rewrite Hr. simpl.
  by destruct (StatusCode httpResp =? StatusOK).
Qed.

Lemma doResponse_run adaptor httpResp mapping (s : Store ExtState) :
  doResponse E adaptor httpResp mapping s =
  match DoResponse adaptor httpResp s with
  | ((usage, Some e), s') =>
      (Fail (ResetStatusCode E e mapping), s',
       [EvDoResponse httpResp (info s) (usage, Some e);
        EvResetStatusCode e mapping (ResetStatusCode E e mapping)])
  | ((usage, None), s') =>
      (Done usage, s', [EvDoResponse httpResp (info s) (usage, None)])
  end.
Proof.
  unfold doResponse. unfold_monad.
  by destruct (DoResponse adaptor httpResp s) as [[usage [e|]] s'].
Qed.

Lemma normalizeUsage_TotalTokens request usage :
  TotalTokens (normalizeUsage E request usage)
  = if TotalTokens usage =? 0 then int_of_N E (N request) else TotalTokens usage.
Proof.
  unfold normalizeUsage.
  destruct (TotalTokens usage =? 0) eqn:Ht; simpl;
    destruct (PromptTokens usage =? 0); simpl; done.
Qed.

Lemma normalizeUsage_PromptTokens request usage :
  PromptTokens (normalizeUsage E request usage)
  = if PromptTokens usage =? 0 then int_of_N E (N request) else PromptTokens usage.
Proof.
  unfold normalizeUsage.
  destruct (TotalTokens usage =? 0); simpl;
    destruct (PromptTokens usage =? 0) eqn:Hp; simpl; by rewrite ?Hp.
Qed.

Lemma normalizeUsage_CompletionTokens request usage :
  CompletionTokens (normalizeUsage E request usage) = CompletionTokens usage.
Proof.
  unfold normalizeUsage.
  destruct (TotalTokens usage =? 0); simpl;
    destruct (PromptTokens usage =? 0); simpl; done.
Qed.

(** *** Quota consumption *)

(** C1.  The quota consumer is called exactly once in a run that
    returns nil, as the last call of the run, with the usage record the
    adaptor produced after normalization and with the descriptor; in a
    run that returns an error (or panics) it is not called at all. *)
Theorem quota_once_on_success_never_on_failure (s : Store ExtState) :
  match result_of (ImageHelper E s) with
  | Done _ =>
      exists request usage logContent,
        mappedRequest (trace_of (ImageHelper E s)) = Some request
        /\ adaptorUsage (trace_of (ImageHelper E s)) = Some usage
        /\ described request (Done logContent)
             (List.filter (fun ev => match ev with
                                     | EvParseMultipartForm _ => true
                                     | _ => false
                                     end) (trace_of (ImageHelper E s)))
        /\ quotaCalls (trace_of (ImageHelper E s))
           = [(normalizeUsage E request usage, logContent)]
        /\ last (trace_of (ImageHelper E s))
           = Some (EvPostConsumeQuota (normalizeUsage E request usage) logContent)
  | Fail _ | Panic => quotaCalls (trace_of (ImageHelper E s)) = []
  end.
Proof.
  all_runs s; try done.
  all: eexists _, _, _; split_and!; try reflexivity; by constructor.
Qed.

(** C2.  In a run that returns nil, the usage record handed to the
    quota consumer is the adaptor's record with each token field
    treated on its own: a zero total becomes the image count of the
    request, a zero prompt count becomes the image count, and a
    non-zero field (and the completion count) is kept. *)
Theorem usage_fallback_per_field (s : Store ExtState) :
  result_of (ImageHelper E s) = Done tt ->
  exists request usage normalized logContent,
    mappedRequest (trace_of (ImageHelper E s)) = Some request
    /\ adaptorUsage (trace_of (ImageHelper E s)) = Some usage
    /\ quotaCalls (trace_of (ImageHelper E s)) = [(normalized, logContent)]
    /\ TotalTokens normalized
       = (if TotalTokens usage =? 0 then int_of_N E (N request)
          else TotalTokens usage)
    /\ PromptTokens normalized
       = (if PromptTokens usage =? 0 then int_of_N E (N request)
          else PromptTokens usage)
    /\ CompletionTokens normalized = CompletionTokens usage.
Proof.
  all_runs s; intros Hdone; try discriminate Hdone.
  all: eexists _, _, _, _; split_and!; try reflexivity;
    auto using normalizeUsage_TotalTokens, normalizeUsage_PromptTokens,
               normalizeUsage_CompletionTokens.
Qed.
(** *** Order of the stages *)

(** C7, as the code has it.  The calls of a run follow the order of
    the handler's text: isolation copy, model mapping, registry
    lookup, adaptor initialisation, body construction, transport, then
    reconciliation or error classification, then accounting.  The
    registry is consulted only after the copy and the model mapping
    have succeeded; a failed lookup ends the run with InvalidAPIType
    (non-retryable); a failed copy or a failed mapping ends the run
    with that stage's error and the registry is never consulted. *)
Theorem stages_follow_handler_text (s : Store ExtState) :
  stagesInOrder (trace_of (ImageHelper E s)) = true
  /\ (countEv isFailedLookup (trace_of (ImageHelper E s)) ≠ 0%nat ->
      exists imageReq copy request apiType,
        GetAdaptor E apiType = None
        /\ trace_of (ImageHelper E s)
           = [EvInitChannelMeta; EvDeepCopy imageReq (inr copy);
              EvModelMappedHelper copy (request, None);
              EvGetAdaptor apiType false]
        /\ result_of (ImageHelper E s)
           = Fail (NewError (Errorf "invalid api type: " (pretty apiType))
                     ErrorCodeInvalidApiType [ErrOptionWithSkipRetry]))
  /\ (countEv isFailedCopy (trace_of (ImageHelper E s)) ≠ 0%nat ->
      countEv isGetAdaptor (trace_of (ImageHelper E s)) = 0%nat
      /\ exists err,
          result_of (ImageHelper E s)
          = Fail (NewError (Errorf "failed to copy request to ImageRequest: " err)
                    ErrorCodeInvalidRequest [ErrOptionWithSkipRetry]))
  /\ (countEv isFailedMapping (trace_of (ImageHelper E s)) ≠ 0%nat ->
      countEv isGetAdaptor (trace_of (ImageHelper E s)) = 0%nat
      /\ exists err,
          result_of (ImageHelper E s)
          = Fail (NewError err ErrorCodeChannelModelMappedError
                    [ErrOptionWithSkipRetry])).
Proof.
  all_runs s; split_and!; try done; eauto 10.
Qed.
(** *** Building the transport body *)

Ltac rest_of_run H :=
  match goal with
  | |- context [finishRequest E ?r ?a ?b ?m ?s] =>
      destruct (finishRequest E r a b m s) as [[? ?] ?] eqn:H;
      apply finishRequest_finished in H
  end.

(** C3.  When the request reaches line 55 with passthrough enabled
    (by the global flag or by the channel flag), the handler never
    calls ConvertImageRequest, Marshal or ApplyParamOverride; if
    reading the raw body fails the run ends with
    ReadRequestBodyFailed, and otherwise the one body handed to
    DoRequest is the raw body as read. *)
Theorem passthrough_forwards_raw_body (s s1 : Store ExtState)
    request adaptor t1 :
  prepareRequest E s = (Done (request, adaptor), s1, t1) ->
  PassThroughRequestEnabled (GetGlobalSettings E (ext s1)) = true
  \/ PassThroughBodyEnabled (info s1) = true ->
  countEv isConvertImageRequest (trace_of (ImageHelper E s)) = 0%nat
  /\ countEv isMarshal (trace_of (ImageHelper E s)) = 0%nat
  /\ countEv isApplyParamOverride (trace_of (ImageHelper E s)) = 0%nat
  /\ match (GetRequestBody E s1).1 with
     | inl err =>
         result_of (ImageHelper E s)
         = Fail (NewErrorWithStatusCode err ErrorCodeReadRequestBodyFailed
                   StatusBadRequest [ErrOptionWithSkipRetry])
         /\ transportBodies (trace_of (ImageHelper E s)) = []
     | inr body => transportBodies (trace_of (ImageHelper E s)) = [body]
     end.
Proof.
  intros H1 Hflag.
  assert (Hp : passThrough E s1 = true).
  { unfold passThrough. destruct Hflag as [-> | ->]; [done|apply orb_true_r]. }
  rewrite ImageHelper_blocks, H1, (buildRequestBody_passThrough _ _ _ Hp).
  apply prepareRequest_prepared in H1.
  destruct (GetRequestBody E s1) as [[err|body] s2]; simpl.
  - unfold result_of, trace_of; simpl. shapes. done.
  - rest_of_run H3. unfold result_of, trace_of; simpl. shapes; done.
Qed.

(** C4, as the code has it.  A parameter override is only ever applied
    to the bytes that the serialization call right before it returned.
    When the request reaches line 55 with passthrough disabled and the
    override set is not empty, the override is applied exactly when
    the conversion yields a payload that is not a raw byte buffer and
    that payload serializes: it is applied to the serialized bytes; if
    it fails the run ends with ChannelParamOverrideInvalid, which
    carries the skip-retry flag; otherwise its result - whatever the
    override added - is the one body handed to DoRequest.  A raw byte
    buffer is the body as it is, with no override; a failed conversion
    or serialization ends the run with ConvertRequestFailed before any
    override or transport call. *)
Theorem override_patches_serialized_bytes (s : Store ExtState) :
  overridesPatchSerialized None (trace_of (ImageHelper E s))
  /\ forall request adaptor (s1 s2 : Store ExtState) t1 converted,
      prepareRequest E s = (Done (request, adaptor), s1, t1) ->
      passThrough E s1 = false ->
      ConvertImageRequest adaptor request s1 = (converted, s2) ->
      (0 < size (ParamOverride (info s2)))%nat ->
      match converted with
      | inl _ =>
          (exists e, result_of (ImageHelper E s) = Fail e
                     /\ GetErrorCode e = ErrorCodeConvertRequestFailed)
          /\ countEv isApplyParamOverride (trace_of (ImageHelper E s)) = 0%nat
          /\ transportBodies (trace_of (ImageHelper E s)) = []
      | inr (ConvBuffer buf) =>
          transportBodies (trace_of (ImageHelper E s)) = [buf]
          /\ countEv isApplyParamOverride (trace_of (ImageHelper E s)) = 0%nat
      | inr (ConvValue v) =>
          match Marshal E v with
          | inl _ =>
              (exists e, result_of (ImageHelper E s) = Fail e
                         /\ GetErrorCode e = ErrorCodeConvertRequestFailed)
              /\ countEv isApplyParamOverride (trace_of (ImageHelper E s)) = 0%nat
              /\ transportBodies (trace_of (ImageHelper E s)) = []
          | inr jsonData =>
              match ApplyParamOverride E jsonData (ParamOverride (info s2)) with
              | inl err =>
                  ImageHelper E s
                  = (Fail (NewError err ErrorCodeChannelParamOverrideInvalid
                             [ErrOptionWithSkipRetry]),
                     s2,
                     t1 ++ [EvConvertImageRequest request (inr (ConvValue v));
                            EvMarshal v (inr jsonData);
                            EvApplyParamOverride jsonData (ParamOverride (info s2))
                              (inl err)])
                  /\ IsSkipRetryError
                       (NewError err ErrorCodeChannelParamOverrideInvalid
                          [ErrOptionWithSkipRetry]) = true
              | inr patched =>
                  transportBodies (trace_of (ImageHelper E s)) = [patched]
                  /\ exists rest,
                      trace_of (ImageHelper E s)
                      = t1 ++ [EvConvertImageRequest request (inr (ConvValue v));
                               EvMarshal v (inr jsonData);
                               EvApplyParamOverride jsonData
                                 (ParamOverride (info s2)) (inr patched)] ++ rest
              end
          end
      end.
Proof.
  split.
  - all_runs s; done.
  - intros request adaptor s1 s2 t1 converted H1 Hp Hc Hov.
    rewrite ImageHelper_blocks, H1, (buildRequestBody_convert _ _ _ Hp), Hc.
    apply prepareRequest_prepared in H1.
    destruct converted as [err|[buf|v]].
    + unfold result_of, trace_of; simpl. split; [by eexists|]. shapes; done.
    + rest_of_run H3. unfold trace_of; simpl. shapes; done.
    + destruct (Marshal E v) as [err|jsonData].
      * unfold result_of, trace_of; simpl. split; [by eexists|]. shapes; done.
      * assert ((0 <? Z.of_nat (size (ParamOverride (info s2)))) = true) as ->
          by (apply Z.ltb_lt; lia).
        destruct (ApplyParamOverride E jsonData (ParamOverride (info s2)))
          as [err|patched].
        -- done.
        -- rest_of_run H3. unfold trace_of; simpl. split.
           ++ shapes; done.
           ++ eexists. reflexivity.
Qed.

(** C10.  Overrides are applied on the serialization branch only: a
    run has at most as many override calls as serialization calls.
    When the request reaches line 55 with passthrough disabled and the
    adaptor's conversion returns a raw byte buffer, that buffer is the
    one body handed to DoRequest, and neither Marshal nor
    ApplyParamOverride is called, whatever the override set holds. *)
Theorem raw_buffer_skips_override (s : Store ExtState) :
  (countEv isApplyParamOverride (trace_of (ImageHelper E s))
   <= countEv isMarshal (trace_of (ImageHelper E s)))%nat
  /\ forall request adaptor (s1 s2 : Store ExtState) t1 buf,
      prepareRequest E s = (Done (request, adaptor), s1, t1) ->
      passThrough E s1 = false ->
      ConvertImageRequest adaptor request s1 = (inr (ConvBuffer buf), s2) ->
      transportBodies (trace_of (ImageHelper E s)) = [buf]
      /\ countEv isMarshal (trace_of (ImageHelper E s)) = 0%nat
      /\ countEv isApplyParamOverride (trace_of (ImageHelper E s)) = 0%nat.
Proof.
  split.
  - all_runs s; unfold countEv; simpl; lia.
  - intros request adaptor s1 s2 t1 buf H1 Hp Hc.
    rewrite ImageHelper_blocks, H1, (buildRequestBody_convert _ _ _ Hp), Hc.
    apply prepareRequest_prepared in H1.
    rest_of_run H3. unfold trace_of; simpl. shapes; done.
Qed.
(** What a failed conversion and a failed serialization return. *)
Lemma conversion_failures (s s1 : Store ExtState) request adaptor t1 :
  prepareRequest E s = (Done (request, adaptor), s1, t1) ->
  passThrough E s1 = false ->
  match ConvertImageRequest adaptor request s1 with
  | (inl err, _) =>
      result_of (ImageHelper E s)
      = Fail (NewError err ErrorCodeConvertRequestFailed [])
  | (inr (ConvValue v), _) =>
      match Marshal E v with
      | inl err =>
          result_of (ImageHelper E s)
          = Fail (NewError err ErrorCodeConvertRequestFailed
                    [ErrOptionWithSkipRetry])
      | inr _ => True
      end
  | (inr (ConvBuffer _), _) => True
  end.
Proof.
  intros H1 Hp.
  rewrite ImageHelper_blocks, H1, (buildRequestBody_convert _ _ _ Hp).
  destruct (ConvertImageRequest adaptor request s1) as [[err|[buf|v]] s2];
    [done|done|].
  by destruct (Marshal E v).
Qed.

(** *** Response intake and error classification *)

(** C5.  When the raw response has a status other than 200, the run
    ends with the error of RelayErrorHandler after ResetStatusCode
    with the configured mapping, and DoResponse is not called; when
    DoResponse fails, its error goes through ResetStatusCode with the
    same mapping.  In every run the remapper is called exactly as
    often as one of these two happens, and an error the handler
    constructed itself is returned without any call of the remapper. *)
Theorem upstream_failures_are_remapped (s : Store ExtState) :
  (forall request adaptor (s1 s2 s3 : Store ExtState) t1 requestBody t2 resp,
      prepareRequest E s = (Done (request, adaptor), s1, t1) ->
      buildRequestBody E adaptor request s1 = (Done requestBody, s2, t2) ->
      DoRequest adaptor requestBody s2 = (inr (RespHttp (Some resp)), s3) ->
      StatusCode resp ≠ StatusOK ->
      result_of (ImageHelper E s)
      = Fail (ResetStatusCode E (RelayErrorHandler E resp)
                (GetString (ctx s2) "status_code_mapping"))
      /\ countEv isDoResponse (trace_of (ImageHelper E s)) = 0%nat)
  /\ (forall request adaptor (s1 s2 s3 s4 : Store ExtState) t1 requestBody t2
             httpResp t3 usage e,
      prepareRequest E s = (Done (request, adaptor), s1, t1) ->
      buildRequestBody E adaptor request s1 = (Done requestBody, s2, t2) ->
      doRequest E adaptor requestBody (GetString (ctx s2) "status_code_mapping") s2
      = (Done httpResp, s3, t3) ->
      DoResponse adaptor httpResp s3 = ((usage, Some e), s4) ->
      result_of (ImageHelper E s)
      = Fail (ResetStatusCode E e (GetString (ctx s2) "status_code_mapping")))
  /\ (countEv isResetStatusCode (trace_of (ImageHelper E s))
      = countEv isRelayErrorHandler (trace_of (ImageHelper E s))
        + countEv isFailedDoResponse (trace_of (ImageHelper E s)))%nat
  /\ (forall e, result_of (ImageHelper E s) = Fail e ->
        (countEv isResetStatusCode (trace_of (ImageHelper E s)) = 0%nat
         /\ GetErrorCode e ∈ handlerKinds)
        \/ (exists e0 mapping,
              e = ResetStatusCode E e0 mapping
              /\ last (trace_of (ImageHelper E s))
                 = Some (EvResetStatusCode e0 mapping e))).
Proof.
  split_and!.
  - intros request adaptor s1 s2 s3 t1 requestBody t2 resp H1 H2 H3 Hst.
    rewrite ImageHelper_blocks, H1, H2. unfold finishRequest.
    rewrite bind_run, (doRequest_response _ _ _ _ _ _ H3).
    assert ((StatusCode resp =? StatusOK) = false) as -> by (apply Z.eqb_neq; done).
    apply prepareRequest_prepared in H1. apply buildRequestBody_built in H2.
    unfold result_of, trace_of; simpl. split; [done|]. shapes; done.
  - intros request adaptor s1 s2 s3 s4 t1 requestBody t2 httpResp t3 usage e
           H1 H2 H3 H4.
    rewrite ImageHelper_blocks, H1, H2. unfold finishRequest.
    rewrite bind_run, H3, bind_run, doResponse_run, H4. done.
  - all_runs s; done.
  - all_runs s; intros e0 He; simplify_eq; try (right; eauto; fail);
      left; (split; [done|]); unfold handlerKinds; simpl; set_solver.
Qed.

(** C9.  When DoRequest returns a response whose content type begins
    with text/event-stream, the stream flag of the relay info is true
    from line 105 on, whatever it was before, and a flag that was true
    before stays true: with status 200 this is the info DoResponse is
    handed, with another status it is the info the handler leaves
    behind. *)
Theorem event_stream_sets_stream_flag (s s1 s2 s3 : Store ExtState)
    request adaptor t1 requestBody t2 resp :
  prepareRequest E s = (Done (request, adaptor), s1, t1) ->
  buildRequestBody E adaptor request s1 = (Done requestBody, s2, t2) ->
  DoRequest adaptor requestBody s2 = (inr (RespHttp (Some resp)), s3) ->
  String.prefix "text/event-stream" (Header_Get (Header resp) "Content-Type") = true
  \/ IsStream (info s3) = true ->
  IsStream (info (afterIntake s3 resp)) = true
  /\ if StatusCode resp =? StatusOK then
       exists ret rest,
         trace_of (ImageHelper E s)
         = t1 ++ t2 ++ [EvDoRequest requestBody (inr (RespHttp (Some resp)));
                        EvDoResponse (Some resp) (info (afterIntake s3 resp)) ret]
              ++ rest
     else store_of (ImageHelper E s) = afterIntake s3 resp.
Proof.
  intros H1 H2 H3 Hflag.
  split.
  - unfold afterIntake, streamFlag; simpl.
    destruct Hflag as [-> | ->]; [apply orb_true_r|done].
  - rewrite ImageHelper_blocks, H1, H2. unfold finishRequest.
    rewrite bind_run, (doRequest_response _ _ _ _ _ _ H3).
    destruct (StatusCode resp =? StatusOK); [|done].
    rewrite bind_run, doResponse_run.
    destruct (DoResponse adaptor (Some resp) (afterIntake s3 resp))
      as [[usage [e|]] s4]; unfold trace_of; simpl.
    + eexists _, _. reflexivity.
    + destruct (account E request usage s4) as [[o5 s5] t5]; simpl.
      eexists _, _. reflexivity.
Qed.
(** *** Failures the handler answers by itself *)

Ltac run_cases :=
  repeat case_match; simplify_eq/=;
  repeat match goal with
         | H : finishRequest _ _ _ _ _ _ = _ |- _ =>
             apply finishRequest_finished in H
         end;
  shapes.

Lemma doRequest_failed adaptor requestBody mapping (s s3 : Store ExtState) err :
  DoRequest adaptor requestBody s = (inl err, s3) ->
  doRequest E adaptor requestBody mapping s
  = (Fail (NewOpenAIError err ErrorCodeDoRequestFailed StatusInternalServerError),
     s3, [EvDoRequest requestBody (inl err)]).
Proof. intros Hr. unfold doRequest. unfold_monad. by rewrite Hr. Qed.

Lemma doRequest_nil adaptor requestBody mapping (s s3 : Store ExtState) :
  DoRequest adaptor requestBody s = (inr RespNil, s3) ->
  doRequest E adaptor requestBody mapping s
  = (Done None, s3, [EvDoRequest requestBody (inr RespNil)]).
Proof. intros Hr. unfold doRequest. unfold_monad. by rewrite Hr. Qed.

(** X5.  A request that is not an image request is rejected right after
    the channel meta is initialised, with InvalidRequest, status 400
    and the skip-retry option: nothing is copied, mapped, looked up or
    sent. *)
Theorem wrong_request_type_is_rejected_first (s : Store ExtState)
    (typeName : string) :
  Request (info (InitChannelMeta E s)) = AnyOtherRequest typeName ->
  ImageHelper E s
  = (Fail (NewErrorWithStatusCode
             (Errorf "invalid request type, expected dto.ImageRequest, got " typeName)
             ErrorCodeInvalidRequest StatusBadRequest [ErrOptionWithSkipRetry]),
     InitChannelMeta E s, [EvInitChannelMeta]).
Proof.
  intros Hr. rewrite ImageHelper_blocks. unfold prepareRequest. unfold_monad.
  simpl. by rewrite Hr.
Qed.

(** X6.  When DoRequest itself fails, the run ends with DoRequestFailed
    and status 500, built without the skip-retry option; the store is
    as DoRequest left it (the stream flag is not touched), and neither
    the error classifier, the remapper nor DoResponse is called. *)
Theorem transport_failure_is_returned_unmapped (s s1 s2 s3 : Store ExtState)
    request adaptor t1 requestBody t2 err :
  prepareRequest E s = (Done (request, adaptor), s1, t1) ->
  buildRequestBody E adaptor request s1 = (Done requestBody, s2, t2) ->
  DoRequest adaptor requestBody s2 = (inl err, s3) ->
  ImageHelper E s
  = (Fail (NewOpenAIError err ErrorCodeDoRequestFailed StatusInternalServerError),
     s3, t1 ++ t2 ++ [EvDoRequest requestBody (inl err)])
  /\ IsSkipRetryError
       (NewOpenAIError err ErrorCodeDoRequestFailed StatusInternalServerError)
     = false
  /\ countEv isRelayErrorHandler (trace_of (ImageHelper E s)) = 0%nat
  /\ countEv isResetStatusCode (trace_of (ImageHelper E s)) = 0%nat
  /\ countEv isDoResponse (trace_of (ImageHelper E s)) = 0%nat.
Proof.
  intros H1 H2 H3.
  assert (Hrun : ImageHelper E s
                 = (Fail (NewOpenAIError err ErrorCodeDoRequestFailed
                            StatusInternalServerError),
                    s3, t1 ++ t2 ++ [EvDoRequest requestBody (inl err)])).
  { rewrite ImageHelper_blocks, H1, H2. unfold finishRequest.
    by rewrite bind_run, (doRequest_failed _ _ _ _ _ _ H3). }
  rewrite Hrun. apply prepareRequest_prepared in H1.
  apply buildRequestBody_built in H2. unfold trace_of; simpl.
  split_and!; try done; shapes; done.
Qed.

(** X7.  When DoRequest returns no response at all (a nil interface
    without an error), the handler goes straight to DoResponse with a
    nil response and the relay info as DoRequest left it: no content
    type is inspected, no status is checked, and the error classifier
    is not called. *)
Theorem nil_response_goes_to_reconciliation (s s1 s2 s3 : Store ExtState)
    request adaptor t1 requestBody t2 :
  prepareRequest E s = (Done (request, adaptor), s1, t1) ->
  buildRequestBody E adaptor request s1 = (Done requestBody, s2, t2) ->
  DoRequest adaptor requestBody s2 = (inr RespNil, s3) ->
  (exists rest,
      trace_of (ImageHelper E s)
      = t1 ++ t2 ++ [EvDoRequest requestBody (inr RespNil);
                     EvDoResponse None (info s3) (DoResponse adaptor None s3).1]
           ++ rest)
  /\ countEv isRelayErrorHandler (trace_of (ImageHelper E s)) = 0%nat.
Proof.
  intros H1 H2 H3.
  rewrite ImageHelper_blocks, H1, H2. unfold finishRequest.
  rewrite bind_run, (doRequest_nil _ _ _ _ _ H3), bind_run, doResponse_run.
  apply prepareRequest_prepared in H1. apply buildRequestBody_built in H2.
  destruct (DoResponse adaptor None s3) as [[usage [e|]] s4] eqn:H4; simpl.
  - unfold trace_of; simpl. split; [by eexists|]. shapes; done.
  - destruct (account E request usage s4) as [[o5 s5] t5] eqn:H5.
    apply account_accounted in H5.
    unfold trace_of; simpl. split; [by eexists|]. shapes; done.
Qed.
(** X8.  The handler panics exactly when its last call returned one of
    the values its unchecked type assertions and dereferences cannot
    take: a non-nil DoRequest result that is not a usable
    *http.Response, a DoResponse result without error whose usage is
    not a usable *dto.Usage, or a multipart parse that reports success
    and leaves the form nil. *)
Theorem panics_have_a_cause (s : Store ExtState) :
  result_of (ImageHelper E s) = Panic
  <-> exists ev, last (trace_of (ImageHelper E s)) = Some ev
                 /\ panicCause ev = true.
Proof.
  all_runs s; split;
    first [ discriminate
          | intros (ev & Hl & Hc); simplify_eq/=; discriminate
          | intros _; eexists; split; reflexivity ].
Qed.

(** X9.  The adaptor is initialised at most once in a run, and whenever
    one of its other capabilities is called, Init was called before
    every such call, right after the lookup that found the adaptor. *)
Theorem adaptor_is_initialised_first (s : Store ExtState) :
  (countEv isInit (trace_of (ImageHelper E s)) <= 1)%nat
  /\ (countEv isAdaptorCall (trace_of (ImageHelper E s)) ≠ 0%nat ->
      exists pre apiType rest,
        trace_of (ImageHelper E s)
        = pre ++ [EvGetAdaptor apiType true; EvInit] ++ rest
        /\ countEv isAdaptorCall pre = 0%nat
        /\ countEv isInit pre = 0%nat
        /\ countEv isInit rest = 0%nat).
Proof.
  all_runs s; (split; [unfold countEv; simpl; lia|]); try done.
  all: intros _; eexists [_; _; _], _, _; split; [reflexivity|done].
Qed.

(** X10.  Every error the handler returns carries the skip-retry option,
    with three exceptions: the error of a failed conversion, the error
    of a failed transport call, and an error that came out of the
    remapper (an upstream error, which is whatever the collaborators
    made it). *)
Theorem which_errors_skip_retry (s : Store ExtState) (e : NewAPIError) :
  result_of (ImageHelper E s) = Fail e ->
  IsSkipRetryError e = true
  \/ (exists request err,
        last (trace_of (ImageHelper E s))
        = Some (EvConvertImageRequest request (inl err))
        /\ e = NewError err ErrorCodeConvertRequestFailed [])
  \/ (exists requestBody err,
        last (trace_of (ImageHelper E s)) = Some (EvDoRequest requestBody (inl err))
        /\ e = NewOpenAIError err ErrorCodeDoRequestFailed StatusInternalServerError)
  \/ (exists e0 mapping,
        last (trace_of (ImageHelper E s)) = Some (EvResetStatusCode e0 mapping e)).
Proof.
  all_runs s; intros He; simplify_eq; eauto 10.
Qed.

(** *** Accounting *)

(** X11.  In a run that returns nil, the usage record handed to the
    quota consumer has non-zero total and prompt counts whenever the
    image count of the request converts to a non-zero int; a zero
    total or prompt count reaches the quota consumer only when the
    image count converts to 0. *)
Theorem billed_tokens_are_zero_only_for_zero_images (s : Store ExtState) :
  result_of (ImageHelper E s) = Done tt ->
  exists request usage logContent,
    mappedRequest (trace_of (ImageHelper E s)) = Some request
    /\ quotaCalls (trace_of (ImageHelper E s)) = [(usage, logContent)]
    /\ (int_of_N E (N request) ≠ 0 ->
        TotalTokens usage ≠ 0 /\ PromptTokens usage ≠ 0)
    /\ (TotalTokens usage = 0 \/ PromptTokens usage = 0 ->
        int_of_N E (N request) = 0).
Proof.
  assert (Hn : forall request usage,
             (int_of_N E (N request) ≠ 0 ->
              TotalTokens (normalizeUsage E request usage) ≠ 0
              /\ PromptTokens (normalizeUsage E request usage) ≠ 0)
             /\ (TotalTokens (normalizeUsage E request usage) = 0
                 \/ PromptTokens (normalizeUsage E request usage) = 0 ->
                 int_of_N E (N request) = 0)).
  { intros request usage.
    rewrite normalizeUsage_TotalTokens, normalizeUsage_PromptTokens.
    destruct (TotalTokens usage =? 0) eqn:Ht;
      destruct (PromptTokens usage =? 0) eqn:Hp;
      rewrite ?Z.eqb_eq, ?Z.eqb_neq in *; split; intros; lia. }
  all_runs s; intros Hdone; try discriminate Hdone.
  all: eexists _, _, _; split_and!; try reflexivity; apply Hn.
Qed.

(** X12.  Normalizing a usage record twice gives what normalizing it
    once gives. *)
Theorem normalizeUsage_idempotent (request : ImageRequest) (usage : Usage) :
  normalizeUsage E request (normalizeUsage E request usage)
  = normalizeUsage E request usage.
Proof.
  destruct usage as [p c t]. unfold normalizeUsage; simpl.
  destruct (t =? 0) eqn:Ht; destruct (p =? 0) eqn:Hp; simpl;
    rewrite ?Ht, ?Hp; simpl;
    destruct (int_of_N E (N request) =? 0) eqn:Hn; simpl;
    rewrite ?Ht, ?Hp, ?Hn; simpl; rewrite ?Ht, ?Hp, ?Hn; try done.
Qed.

(** X13.  For a request without an explicit size, a run that returns
    nil hands the quota consumer the empty descriptor and never parses
    the inbound form. *)
Theorem no_size_no_descriptor (s : Store ExtState) (request : ImageRequest) :
  result_of (ImageHelper E s) = Done tt ->
  mappedRequest (trace_of (ImageHelper E s)) = Some request ->
  Size request = "" ->
  (exists usage, quotaCalls (trace_of (ImageHelper E s)) = [(usage, "")])
  /\ countEv isParseMultipartForm (trace_of (ImageHelper E s)) = 0%nat.
Proof.
  all_runs s; intros Hdone Hreq Hsize; try discriminate Hdone;
    unfold mappedRequest in Hreq; simpl in Hreq; simplify_eq;
    try (split; [by eexists|done]).
  all: match goal with
       | H : String.length (Size _) ≠ 0%nat |- _ => by rewrite Hsize in H
       end.
Qed.

(** X14.  A failure to parse the inbound multipart form does not fail
    the request: the run returns nil and the quota consumer gets the
    descriptor of the request without any image part.  A run that
    returns an error never parses the form. *)
Theorem parse_failure_is_swallowed (s : Store ExtState) :
  (countEv isFailedParse (trace_of (ImageHelper E s)) ≠ 0%nat ->
   result_of (ImageHelper E s) = Done tt
   /\ exists request usage,
       mappedRequest (trace_of (ImageHelper E s)) = Some request
       /\ quotaCalls (trace_of (ImageHelper E s))
          = [(usage, baseLogContent request)])
  /\ (forall e, result_of (ImageHelper E s) = Fail e ->
        countEv isParseMultipartForm (trace_of (ImageHelper E s)) = 0%nat).
Proof.
  all_runs s; split; try done; intros _; split; try done;
    eexists _, _; split; reflexivity.
Qed.
(** X15.  The quality tier of the descriptor is "hd" exactly when the
    request's quality field is the string "hd"; any other value, the
    empty one and other spellings included, gives "standard". *)
Theorem quality_is_hd_or_standard (request : ImageRequest) :
  (qualityOf request = "hd" <-> Quality request = "hd")
  /\ (qualityOf request = "standard" <-> Quality request ≠ "hd").
Proof.
  unfold qualityOf. destruct (String.eqb (Quality request) "hd") eqn:Hq.
  - apply String.eqb_eq in Hq. split; split; try done.
  - apply String.eqb_neq in Hq. split; split; try done.
Qed.

(** *** More on the transport body *)

(** X16.  With passthrough disabled at line 55 the handler never reads
    the raw inbound body. *)
Theorem converted_body_never_reads_raw_body (s s1 : Store ExtState)
    request adaptor t1 :
  prepareRequest E s = (Done (request, adaptor), s1, t1) ->
  passThrough E s1 = false ->
  countEv isGetRequestBody (trace_of (ImageHelper E s)) = 0%nat.
Proof.
  intros H1 Hp.
  rewrite ImageHelper_blocks, H1, (buildRequestBody_convert _ _ _ Hp).
  apply prepareRequest_prepared in H1.
  unfold trace_of. run_cases; done.
Qed.

(** X17.  On the serialization branch with an empty override set, the
    serialized bytes are the one body handed to DoRequest and
    ApplyParamOverride is not called. *)
Theorem empty_override_set_sends_serialized_bytes (s s1 s2 : Store ExtState)
    request adaptor t1 v jsonData :
  prepareRequest E s = (Done (request, adaptor), s1, t1) ->
  passThrough E s1 = false ->
  ConvertImageRequest adaptor request s1 = (inr (ConvValue v), s2) ->
  Marshal E v = inr jsonData ->
  size (ParamOverride (info s2)) = 0%nat ->
  transportBodies (trace_of (ImageHelper E s)) = [jsonData]
  /\ countEv isApplyParamOverride (trace_of (ImageHelper E s)) = 0%nat.
Proof.
  intros H1 Hp Hc Hm Hov.
  rewrite ImageHelper_blocks, H1, (buildRequestBody_convert _ _ _ Hp), Hc, Hm, Hov.
  simpl. apply prepareRequest_prepared in H1.
  rest_of_run H3. unfold trace_of; simpl. shapes; done.
Qed.

(** X18.  When the response's content type does not begin with
    text/event-stream (a response without the header included) and the
    stream flag was false, the flag is still false after line 105: with
    status 200 DoResponse is handed an info whose flag is false. *)
Theorem other_content_types_leave_flag_unset (s s1 s2 s3 : Store ExtState)
    request adaptor t1 requestBody t2 resp :
  prepareRequest E s = (Done (request, adaptor), s1, t1) ->
  buildRequestBody E adaptor request s1 = (Done requestBody, s2, t2) ->
  DoRequest adaptor requestBody s2 = (inr (RespHttp (Some resp)), s3) ->
  StatusCode resp = StatusOK ->
  IsStream (info s3) = false ->
  String.prefix "text/event-stream" (Header_Get (Header resp) "Content-Type") = false
  \/ Header resp !! "Content-Type" = None ->
  exists i ret rest,
    trace_of (ImageHelper E s)
    = t1 ++ t2 ++ [EvDoRequest requestBody (inr (RespHttp (Some resp)));
                   EvDoResponse (Some resp) i ret] ++ rest
    /\ IsStream i = false.
Proof.
  intros H1 H2 H3 Hst Hflag Hct.
  assert (Hpre : String.prefix "text/event-stream"
                   (Header_Get (Header resp) "Content-Type") = false).
  { destruct Hct as [Hct|Hct]; [done|]. unfold Header_Get. by rewrite Hct. }
  rewrite ImageHelper_blocks, H1, H2. unfold finishRequest.
  rewrite bind_run, (doRequest_response _ _ _ _ _ _ H3), Hst. simpl.
  rewrite bind_run, doResponse_run.
  assert (Hi : IsStream (info (afterIntake s3 resp)) = false).
  { unfold afterIntake, streamFlag; simpl. by rewrite Hflag, Hpre. }
  destruct (DoResponse adaptor (Some resp) (afterIntake s3 resp))
    as [[usage [e|]] s4]; unfold trace_of; simpl.
  - eexists _, _, _. split; [reflexivity|exact Hi].
  - destruct (account E request usage s4) as [[o5 s5] t5]; simpl.
    eexists _, _, _. split; [reflexivity|exact Hi].
Qed.
(** X20.  The handler never repeats the transport call: DoRequest is
    called at most once in any run, and a run that returns nil has made
    exactly one DoRequest call, one DoResponse call and one Init
    call. *)
Theorem transport_is_called_once (s : Store ExtState) :
  (length (transportBodies (trace_of (ImageHelper E s))) <= 1)%nat
  /\ (result_of (ImageHelper E s) = Done tt ->
      length (transportBodies (trace_of (ImageHelper E s))) = 1%nat
      /\ countEv isDoResponse (trace_of (ImageHelper E s)) = 1%nat
      /\ countEv isInit (trace_of (ImageHelper E s)) = 1%nat).
Proof.
  all_runs s; (split; [lia|]); done.
Qed.

(** X21.  The adaptor never converts the inbound request object: what
    ConvertImageRequest is handed is the request that model mapping
    left, and model mapping was given the copy that DeepCopy
    returned. *)
Theorem adaptor_converts_the_mapped_copy (s : Store ExtState) :
  countEv isConvertImageRequest (trace_of (ImageHelper E s)) ≠ 0%nat ->
  exists imageReq copy request rest,
    trace_of (ImageHelper E s)
    = [EvInitChannelMeta; EvDeepCopy imageReq (inr copy);
       EvModelMappedHelper copy (request, None)] ++ rest
    /\ convertedRequests (trace_of (ImageHelper E s)) = [request].
Proof.
  all_runs s; try done; intros _; eexists _, _, _, _; split; reflexivity.
Qed.
End Runs.

(** ** The handler on concrete inputs *)

Section Concrete.
Import Demo.

Local Abbreviation run k s := (ImageHelper (world k) s).
Local Abbreviation plain := (store false overrides false).
Local Abbreviation fmt := (Sprintf_f1 (world healthy)).

(** A healthy request: conversion, serialization, override, a 200
    response, and a usage record without token counts. *)
Example healthy_run :
  result_of (run healthy plain) = Done tt
  /\ quotaCalls (trace_of (run healthy plain))
     = [({| PromptTokens := 2; CompletionTokens := 0; TotalTokens := 2 |},
         "大小 1024x1024, 品质 hd, 张数 2, 输入图片 1 张 (512 B)")]
  /\ transportBodies (trace_of (run healthy plain)) = [patchedBody].
Proof. vm_compute. done. Qed.

Lemma usage_fallback_per_field_witness :
  result_of (run healthy plain) = Done tt
  /\ exists request usage normalized logContent,
      mappedRequest (trace_of (run healthy plain)) = Some request
      /\ adaptorUsage (trace_of (run healthy plain)) = Some usage
      /\ quotaCalls (trace_of (run healthy plain)) = [(normalized, logContent)]
      /\ TotalTokens normalized
         = (if TotalTokens usage =? 0 then wrap_int64 (N request)
            else TotalTokens usage)
      /\ PromptTokens normalized
         = (if PromptTokens usage =? 0 then wrap_int64 (N request)
            else PromptTokens usage)
      /\ CompletionTokens normalized = CompletionTokens usage.
Proof.
  split; [vm_compute; reflexivity|].
  apply (usage_fallback_per_field (world healthy)).
  vm_compute; reflexivity.
Defined.

(** The channel asks for passthrough. *)
Lemma passthrough_forwards_raw_body_witness :
  prepareRequest (world healthy) (store true overrides false)
  = (Done (request, adaptor healthy), store true overrides false, preparedTrace)
  /\ (PassThroughRequestEnabled
       (GetGlobalSettings (world healthy) (ext (store true overrides false))) = true
      \/ PassThroughBodyEnabled (info (store true overrides false)) = true)
  /\ countEv isConvertImageRequest (trace_of (run healthy (store true overrides false)))
     = 0%nat
  /\ countEv isMarshal (trace_of (run healthy (store true overrides false))) = 0%nat
  /\ countEv isApplyParamOverride (trace_of (run healthy (store true overrides false)))
     = 0%nat
  /\ transportBodies (trace_of (run healthy (store true overrides false)))
     = [toBytes "raw client body"].
Proof.
  assert (H1 : prepareRequest (world healthy) (store true overrides false)
               = (Done (request, adaptor healthy), store true overrides false,
                  preparedTrace)) by reflexivity.
  assert (H2 : PassThroughRequestEnabled
                 (GetGlobalSettings (world healthy) (ext (store true overrides false)))
               = true
               \/ PassThroughBodyEnabled (info (store true overrides false)) = true)
    by (right; reflexivity).
  split; [exact H1|]. split; [exact H2|].
  exact (passthrough_forwards_raw_body (world healthy) _ _ _ _ _ H1 H2).
Defined.

(** The override adds the field "seed", which the converted payload
    does not have. *)
Lemma override_patches_serialized_bytes_witness :
  prepareRequest (world healthy) plain
  = (Done (request, adaptor healthy), plain, preparedTrace)
  /\ passThrough (world healthy) plain = false
  /\ ConvertImageRequest (adaptor healthy) request plain
     = (inr (ConvValue [("prompt", "a cat")]), plain)
  /\ Marshal (world healthy) [("prompt", "a cat")] = inr (toBytes "prompt=a cat;")
  /\ (0 < size (ParamOverride (info plain)))%nat
  /\ overridesPatchSerialized None (trace_of (run healthy plain))
  /\ transportBodies (trace_of (run healthy plain)) = [patchedBody]
  /\ exists rest, trace_of (run healthy plain) = preparedTrace ++ builtTrace ++ rest.
Proof.
  assert (H1 : prepareRequest (world healthy) plain
               = (Done (request, adaptor healthy), plain, preparedTrace))
    by reflexivity.
  assert (H2 : passThrough (world healthy) plain = false) by reflexivity.
  assert (H3 : ConvertImageRequest (adaptor healthy) request plain
               = (inr (ConvValue [("prompt", "a cat")]), plain)) by reflexivity.
  assert (H4 : Marshal (world healthy) [("prompt", "a cat")]
               = inr (toBytes "prompt=a cat;")) by reflexivity.
  assert (H5 : (0 < size (ParamOverride (info plain)))%nat)
    by (vm_compute; constructor).
  destruct (override_patches_serialized_bytes (world healthy) plain) as [Ha Hb].
  split_and!; try assumption;
    apply (Hb _ _ _ _ _ _ H1 H2 H3 H5).
Defined.

(** The adaptor returns a finished wire body; the override set is not
    empty. *)
Lemma raw_buffer_skips_override_witness :
  prepareRequest (world rawBuffer) plain
  = (Done (request, adaptor rawBuffer), plain, preparedTrace)
  /\ passThrough (world rawBuffer) plain = false
  /\ ConvertImageRequest (adaptor rawBuffer) request plain
     = (inr (ConvBuffer (toBytes "custom wire body")), plain)
  /\ ParamOverride (info plain) = overrides
  /\ transportBodies (trace_of (run rawBuffer plain)) = [toBytes "custom wire body"]
  /\ countEv isMarshal (trace_of (run rawBuffer plain)) = 0%nat
  /\ countEv isApplyParamOverride (trace_of (run rawBuffer plain)) = 0%nat.
Proof.
  assert (H1 : prepareRequest (world rawBuffer) plain
               = (Done (request, adaptor rawBuffer), plain, preparedTrace))
    by reflexivity.
  assert (H2 : passThrough (world rawBuffer) plain = false) by reflexivity.
  assert (H3 : ConvertImageRequest (adaptor rawBuffer) request plain
               = (inr (ConvBuffer (toBytes "custom wire body")), plain))
    by reflexivity.
  assert (H4 : ParamOverride (info plain) = overrides) by reflexivity.
  destruct (raw_buffer_skips_override (world rawBuffer) plain) as [_ Hb].
  split_and!; try assumption;
    apply (Hb _ _ _ _ _ _ H1 H2 H3).
Defined.
(** An upstream 429, a reconciliation failure, and a failed
    conversion. *)
Lemma upstream_failures_are_remapped_witness :
  (prepareRequest (world throttled) plain
   = (Done (request, adaptor throttled), plain, preparedTrace)
   /\ buildRequestBody (world throttled) (adaptor throttled) request plain
      = (Done patchedBody, plain, builtTrace)
   /\ DoRequest (adaptor throttled) patchedBody plain
      = (inr (RespHttp (Some (streamResponse 429))), plain)
   /\ StatusCode (streamResponse 429) ≠ StatusOK
   /\ result_of (run throttled plain)
      = Fail (NewOpenAIError "bad response status"
                (ErrorCodeUpstream "bad_response_status_code") 502)
   /\ countEv isDoResponse (trace_of (run throttled plain)) = 0%nat)
  /\ (prepareRequest (world unreadable) plain
      = (Done (request, adaptor unreadable), plain, preparedTrace)
      /\ buildRequestBody (world unreadable) (adaptor unreadable) request plain
         = (Done patchedBody, plain, builtTrace)
      /\ doRequest (world unreadable) (adaptor unreadable) patchedBody
           (GetString (ctx plain) "status_code_mapping") plain
         = (Done (Some okResponse), afterIntake plain okResponse,
            [EvDoRequest patchedBody (inr (RespHttp (Some okResponse)))])
      /\ DoResponse (adaptor unreadable) (Some okResponse)
           (afterIntake plain okResponse)
         = ((UsageOther,
             Some (NewOpenAIError "bad response body"
                     (ErrorCodeUpstream "bad_response_body")
                     StatusInternalServerError)),
            afterIntake plain okResponse)
      /\ result_of (run unreadable plain)
         = Fail (NewOpenAIError "bad response body"
                   (ErrorCodeUpstream "bad_response_body") 502))
  /\ (result_of (run conversionFails plain)
      = Fail (NewError "size not supported" ErrorCodeConvertRequestFailed [])
      /\ countEv isResetStatusCode (trace_of (run conversionFails plain)) = 0%nat).
Proof.
  assert (H1 : prepareRequest (world throttled) plain
               = (Done (request, adaptor throttled), plain, preparedTrace))
    by reflexivity.
  assert (H2 : buildRequestBody (world throttled) (adaptor throttled) request plain
               = (Done patchedBody, plain, builtTrace)) by reflexivity.
  assert (H3 : DoRequest (adaptor throttled) patchedBody plain
               = (inr (RespHttp (Some (streamResponse 429))), plain))
    by reflexivity.
  assert (H4 : StatusCode (streamResponse 429) ≠ StatusOK)
    by (vm_compute; discriminate).
  assert (G1 : prepareRequest (world unreadable) plain
               = (Done (request, adaptor unreadable), plain, preparedTrace))
    by reflexivity.
  assert (G2 : buildRequestBody (world unreadable) (adaptor unreadable) request plain
               = (Done patchedBody, plain, builtTrace)) by reflexivity.
  assert (G3 : doRequest (world unreadable) (adaptor unreadable) patchedBody
                 (GetString (ctx plain) "status_code_mapping") plain
               = (Done (Some okResponse), afterIntake plain okResponse,
                  [EvDoRequest patchedBody (inr (RespHttp (Some okResponse)))]))
    by reflexivity.
  assert (G4 : DoResponse (adaptor unreadable) (Some okResponse)
                 (afterIntake plain okResponse)
               = ((UsageOther,
                   Some (NewOpenAIError "bad response body"
                           (ErrorCodeUpstream "bad_response_body")
                           StatusInternalServerError)),
                  afterIntake plain okResponse)) by reflexivity.
  assert (K : result_of (run conversionFails plain)
              = Fail (NewError "size not supported" ErrorCodeConvertRequestFailed []))
    by reflexivity.
  split_and!; try assumption.
  - exact (proj1 (proj1 (upstream_failures_are_remapped (world throttled) plain)
                    _ _ _ _ _ _ _ _ _ H1 H2 H3 H4)).
  - exact (proj2 (proj1 (upstream_failures_are_remapped (world throttled) plain)
                    _ _ _ _ _ _ _ _ _ H1 H2 H3 H4)).
  - exact (proj1 (proj2 (upstream_failures_are_remapped (world unreadable) plain))
             _ _ _ _ _ _ _ _ _ _ _ _ _ G1 G2 G3 G4).
  - destruct (proj2 (proj2 (proj2
                (upstream_failures_are_remapped (world conversionFails) plain)))
                _ K) as [[H _]|(e0 & mapping & _ & Hlast)].
    + exact H.
    + vm_compute in Hlast. discriminate Hlast.
Defined.

(** No adaptor is registered; the copy or the model mapping may fail
    as well. *)
Lemma stages_follow_handler_text_witness :
  (countEv isFailedLookup (trace_of (run unregistered plain)) ≠ 0%nat
   /\ trace_of (run unregistered plain)
      = [EvInitChannelMeta; EvDeepCopy request (inr request);
         EvModelMappedHelper request (request, None); EvGetAdaptor 1 false]
   /\ stagesInOrder (trace_of (run unregistered plain)) = true)
  /\ (countEv isFailedCopy (trace_of (run uncopiedUnregistered plain)) ≠ 0%nat
      /\ countEv isGetAdaptor (trace_of (run uncopiedUnregistered plain)) = 0%nat)
  /\ (countEv isFailedMapping (trace_of (run unmappedUnregistered plain)) ≠ 0%nat
      /\ countEv isGetAdaptor (trace_of (run unmappedUnregistered plain)) = 0%nat).
Proof.
  assert (H1 : countEv isFailedLookup (trace_of (run unregistered plain)) ≠ 0%nat)
    by (vm_compute; discriminate).
  assert (H2 : countEv isFailedCopy (trace_of (run uncopiedUnregistered plain))
               ≠ 0%nat) by (vm_compute; discriminate).
  assert (H3 : countEv isFailedMapping (trace_of (run unmappedUnregistered plain))
               ≠ 0%nat) by (vm_compute; discriminate).
  split_and!; try assumption.
  - destruct (proj1 (proj2 (stages_follow_handler_text (world unregistered) plain))
                H1) as (imageReq & copy & req & apiType & _ & Htr & _).
    rewrite Htr. vm_compute in Htr. by simplify_eq.
  - exact (proj1 (stages_follow_handler_text (world unregistered) plain)).
  - exact (proj1 (proj1 (proj2 (proj2
             (stages_follow_handler_text (world uncopiedUnregistered) plain))) H2)).
  - exact (proj1 (proj2 (proj2 (proj2
             (stages_follow_handler_text (world unmappedUnregistered) plain))) H3)).
Defined.

(** The client did not ask for a stream; the upstream streams. *)
Lemma event_stream_sets_stream_flag_witness :
  prepareRequest (world streaming) plain
  = (Done (request, adaptor streaming), plain, preparedTrace)
  /\ buildRequestBody (world streaming) (adaptor streaming) request plain
     = (Done patchedBody, plain, builtTrace)
  /\ DoRequest (adaptor streaming) patchedBody plain
     = (inr (RespHttp (Some (streamResponse 200))), plain)
  /\ IsStream (info plain) = false
  /\ String.prefix "text/event-stream"
       (Header_Get (Header (streamResponse 200)) "Content-Type") = true
  /\ IsStream (info (afterIntake plain (streamResponse 200))) = true
  /\ exists ret rest,
      trace_of (run streaming plain)
      = preparedTrace ++ builtTrace
        ++ [EvDoRequest patchedBody (inr (RespHttp (Some (streamResponse 200))));
            EvDoResponse (Some (streamResponse 200))
              (info (afterIntake plain (streamResponse 200))) ret]
        ++ rest.
Proof.
  assert (H1 : prepareRequest (world streaming) plain
               = (Done (request, adaptor streaming), plain, preparedTrace))
    by reflexivity.
  assert (H2 : buildRequestBody (world streaming) (adaptor streaming) request plain
               = (Done patchedBody, plain, builtTrace)) by reflexivity.
  assert (H3 : DoRequest (adaptor streaming) patchedBody plain
               = (inr (RespHttp (Some (streamResponse 200))), plain))
    by reflexivity.
  assert (H4 : String.prefix "text/event-stream"
                 (Header_Get (Header (streamResponse 200)) "Content-Type") = true)
    by reflexivity.
  assert (H5 : IsStream (info plain) = false) by reflexivity.
  split; [exact H1|]. split; [exact H2|]. split; [exact H3|].
  split; [exact H5|]. split; [exact H4|].
  exact (event_stream_sets_stream_flag (world streaming)
           _ _ _ _ _ _ _ _ _ _ H1 H2 H3 (or_introl H4)).
Defined.

(** Two indexed fields and an unrelated one, ranged over backwards. *)
Lemma image_metadata_first_match_witness :
  reverse (map_to_list (File arrayForm)) ≡ₚ map_to_list (File arrayForm)
  /\ imageInfoOfForm fmt (reverse (map_to_list (File arrayForm))) arrayForm
     = metadataOf fmt (imagePartsByPrecedence arrayForm).
Proof.
  split; [apply reverse_Permutation|].
  apply image_metadata_first_match, reverse_Permutation.
Defined.

Example image_field_wins :
  imageInfoOfForm fmt (map_to_list (File form)) form = (1, "512 B").
Proof. vm_compute. reflexivity. Qed.

Example indexed_fields_are_summed :
  imageInfoOfForm fmt (reverse (map_to_list (File arrayForm))) arrayForm
  = (2, "2.0 KB").
Proof. vm_compute. reflexivity. Qed.

(** C6.  The adaptor fails to convert the request: the handler returns
    ConvertRequestFailed built without the skip-retry option, so the
    error is retry-eligible, while a serialization failure of the same
    kind carries the option. *)
Theorem convert_failure_lacks_skip_retry :
  passThrough (world conversionFails) plain = false
  /\ (ConvertImageRequest (adaptor conversionFails) request plain).1
     = inl "size not supported"
  /\ result_of (run conversionFails plain)
     = Fail (NewError "size not supported" ErrorCodeConvertRequestFailed [])
  /\ GetErrorCode (NewError "size not supported" ErrorCodeConvertRequestFailed [])
     = ErrorCodeConvertRequestFailed
  /\ IsSkipRetryError
       (NewError "size not supported" ErrorCodeConvertRequestFailed []) = false.
Proof. split_and!; reflexivity. Qed.

(** C7 as stated fails: no adaptor is registered for any API type, yet
    the copy and the model mapping are attempted before the registry
    is consulted, and the request fails with ChannelModelMappedError,
    not with InvalidAPIType. *)
Lemma unregistered_request_fails_in_model_mapping :
  (forall apiType, GetAdaptor (world unmappedUnregistered) apiType = None)
  /\ trace_of (run unmappedUnregistered plain)
     = [EvInitChannelMeta; EvDeepCopy request (inr request);
        EvModelMappedHelper request (request, Some "model not mapped")]
  /\ result_of (run unmappedUnregistered plain)
     = Fail (NewError "model not mapped" ErrorCodeChannelModelMappedError
               [ErrOptionWithSkipRetry])
  /\ GetErrorCode (NewError "model not mapped" ErrorCodeChannelModelMappedError
                     [ErrOptionWithSkipRetry])
     ≠ ErrorCodeInvalidApiType.
Proof. split_and!; try reflexivity. discriminate. Qed.

(** C4 as stated fails: passthrough is disabled and the override set is
    not empty, yet the adaptor's conversion returns a raw byte buffer,
    so the run succeeds without any serialization or override call and
    the buffer is sent as it is, without the overrides' field. *)
Lemma raw_buffer_run_applies_no_override :
  passThrough (world rawBuffer) plain = false
  /\ size (ParamOverride (info plain)) = 1%nat
  /\ result_of (run rawBuffer plain) = Done tt
  /\ countEv isMarshal (trace_of (run rawBuffer plain)) = 0%nat
  /\ countEv isApplyParamOverride (trace_of (run rawBuffer plain)) = 0%nat
  /\ transportBodies (trace_of (run rawBuffer plain)) = [toBytes "custom wire body"].
Proof. split_and!; reflexivity. Qed.
End Concrete.

(** ** More concrete runs *)

Section ConcreteMore.
Import Demo Cases.

Local Abbreviation run k s := (ImageHelper (world k) s).
Local Abbreviation plain := (store false overrides false).
Local Abbreviation fmt := (Sprintf_f1 (world healthy)).
Local Abbreviation formless := (storeWith (AnyImageRequest request) None overrides).
Local Abbreviation unsized := (storeWith (AnyImageRequest sizeless) None overrides).
Local Abbreviation unpatched := (storeWith (AnyImageRequest request) (Some form) ∅).
Local Abbreviation foreign :=
  (storeWith (AnyOtherRequest "*dto.GeneralOpenAIRequest") None overrides).

Lemma formatSize_empty_iff_witness :
  (0 <= 0 /\ formatSize fmt 0 = "")
  /\ (0 < 2048
      /\ (2048 < 1024 /\ formatSize fmt 2048 = pretty 2048 +:+ " B"
          \/ (1024 <= 2048 < 1024 * 1024
              /\ formatSize fmt 2048 = fmt 2048 1024 +:+ " KB")
          \/ (1024 * 1024 <= 2048
              /\ formatSize fmt 2048 = fmt 2048 (1024 * 1024) +:+ " MB"))).
Proof.
  assert (H0 : 0 <= 0) by lia.
  assert (H1 : 0 < 2048) by lia.
  split; (split; [assumption|]).
  - exact (proj2 (proj1 (formatSize_empty_iff fmt 0)) H0).
  - exact (proj2 (formatSize_empty_iff fmt 2048) H1).
Defined.

Example two_kilobytes : formatSize fmt 2048 = "2.0 KB".
Proof. vm_compute. reflexivity. Qed.

Lemma image_count_and_size_agree_witness :
  map_to_list (File form) ≡ₚ map_to_list (File form)
  /\ (imageInfoOfForm fmt (map_to_list (File form)) form).1 = 1
  /\ 0 <= (imageInfoOfForm fmt (map_to_list (File form)) form).1.
Proof.
  assert (Hp : map_to_list (File form) ≡ₚ map_to_list (File form)) by reflexivity.
  split; [exact Hp|].
  destruct (image_count_and_size_agree fmt form _ Hp) as (Hc & Hn & _).
  split; [exact Hc|exact Hn].
Defined.

(** Two empty files under "image". *)
Lemma sizeless_parts_are_counted_witness :
  map_to_list (File emptyFiles) ≡ₚ map_to_list (File emptyFiles)
  /\ wrap_int64 (sumSizes (imagePartsByPrecedence emptyFiles)) <= 0
  /\ imageInfoOfForm fmt (map_to_list (File emptyFiles)) emptyFiles = (2, "").
Proof.
  assert (Hp : map_to_list (File emptyFiles) ≡ₚ map_to_list (File emptyFiles))
    by reflexivity.
  assert (Hz : wrap_int64 (sumSizes (imagePartsByPrecedence emptyFiles)) <= 0)
    by (vm_compute; discriminate).
  split; [exact Hp|]. split; [exact Hz|].
  exact (sizeless_parts_are_counted fmt emptyFiles _ Hp Hz).
Defined.

(** A large "mask" upload next to two indexed images. *)
Lemma unrelated_fields_are_ignored_witness :
  "mask" ≠ "image"
  /\ String.prefix "image[" "mask" = false
  /\ imageInfoOfForm fmt
       (map_to_list (<["mask" := [ {| Filename := "m.png"; FileSize := 9000000 |} ]]>
                       (File arrayForm)))
       {| File := <["mask" := [ {| Filename := "m.png"; FileSize := 9000000 |} ]]>
                    (File arrayForm) |}
     = imageInfoOfForm fmt (map_to_list (File arrayForm)) arrayForm.
Proof.
  assert (Hn : "mask" ≠ "image") by discriminate.
  assert (Hpre : String.prefix "image[" "mask" = false) by reflexivity.
  split; [exact Hn|]. split; [exact Hpre|].
  exact (unrelated_fields_are_ignored fmt arrayForm "mask" _ _ _ Hn Hpre
           (reflexivity _) (reflexivity _)).
Defined.

Lemma wrong_request_type_is_rejected_first_witness :
  Request (info (InitChannelMeta (world healthy) foreign))
  = AnyOtherRequest "*dto.GeneralOpenAIRequest"
  /\ ImageHelper (world healthy) foreign
     = (Fail (NewErrorWithStatusCode
                (Errorf "invalid request type, expected dto.ImageRequest, got "
                        "*dto.GeneralOpenAIRequest")
                ErrorCodeInvalidRequest StatusBadRequest [ErrOptionWithSkipRetry]),
        InitChannelMeta (world healthy) foreign, [EvInitChannelMeta]).
Proof.
  assert (H : Request (info (InitChannelMeta (world healthy) foreign))
              = AnyOtherRequest "*dto.GeneralOpenAIRequest") by reflexivity.
  split; [exact H|].
  exact (wrong_request_type_is_rejected_first (world healthy) foreign _ H).
Defined.

Lemma transport_failure_is_returned_unmapped_witness :
  prepareRequest (world refused) plain
  = (Done (request, adaptor refused), plain, preparedTrace)
  /\ buildRequestBody (world refused) (adaptor refused) request plain
     = (Done patchedBody, plain, builtTrace)
  /\ DoRequest (adaptor refused) patchedBody plain = (inl "connection refused", plain)
  /\ ImageHelper (world refused) plain
     = (Fail (NewOpenAIError "connection refused" ErrorCodeDoRequestFailed
                StatusInternalServerError),
        plain,
        preparedTrace ++ builtTrace
        ++ [EvDoRequest patchedBody (inl "connection refused")]).
Proof.
  assert (H1 : prepareRequest (world refused) plain
               = (Done (request, adaptor refused), plain, preparedTrace))
    by reflexivity.
  assert (H2 : buildRequestBody (world refused) (adaptor refused) request plain
               = (Done patchedBody, plain, builtTrace)) by reflexivity.
  assert (H3 : DoRequest (adaptor refused) patchedBody plain
               = (inl "connection refused", plain)) by reflexivity.
  split; [exact H1|]. split; [exact H2|]. split; [exact H3|].
  exact (proj1 (transport_failure_is_returned_unmapped (world refused)
                  _ _ _ _ _ _ _ _ _ _ H1 H2 H3)).
Defined.

Lemma nil_response_goes_to_reconciliation_witness :
  prepareRequest (world silent) plain
  = (Done (request, adaptor silent), plain, preparedTrace)
  /\ buildRequestBody (world silent) (adaptor silent) request plain
     = (Done patchedBody, plain, builtTrace)
  /\ DoRequest (adaptor silent) patchedBody plain = (inr RespNil, plain)
  /\ countEv isRelayErrorHandler (trace_of (run silent plain)) = 0%nat.
Proof.
  assert (H1 : prepareRequest (world silent) plain
               = (Done (request, adaptor silent), plain, preparedTrace))
    by reflexivity.
  assert (H2 : buildRequestBody (world silent) (adaptor silent) request plain
               = (Done patchedBody, plain, builtTrace)) by reflexivity.
  assert (H3 : DoRequest (adaptor silent) patchedBody plain = (inr RespNil, plain))
    by reflexivity.
  split; [exact H1|]. split; [exact H2|]. split; [exact H3|].
  exact (proj2 (nil_response_goes_to_reconciliation (world silent)
                  _ _ _ _ _ _ _ _ _ H1 H2 H3)).
Defined.

(** DoResponse reports success with a usage value of another type. *)
Lemma panics_have_a_cause_witness :
  result_of (run untyped plain) = Panic
  /\ exists ev, last (trace_of (run untyped plain)) = Some ev
                /\ panicCause ev = true.
Proof.
  assert (H : result_of (run untyped plain) = Panic) by reflexivity.
  split; [exact H|].
  exact (proj1 (panics_have_a_cause (world untyped) plain) H).
Defined.

Lemma adaptor_is_initialised_first_witness :
  countEv isAdaptorCall (trace_of (run healthy plain)) ≠ 0%nat
  /\ (countEv isInit (trace_of (run healthy plain)) <= 1)%nat
  /\ exists pre apiType rest,
      trace_of (run healthy plain)
      = pre ++ [EvGetAdaptor apiType true; EvInit] ++ rest
      /\ countEv isAdaptorCall pre = 0%nat
      /\ countEv isInit pre = 0%nat
      /\ countEv isInit rest = 0%nat.
Proof.
  assert (H : countEv isAdaptorCall (trace_of (run healthy plain)) ≠ 0%nat)
    by (vm_compute; discriminate).
  split; [exact H|].
  destruct (adaptor_is_initialised_first (world healthy) plain) as [Ha Hb].
  split; [exact Ha|exact (Hb H)].
Defined.

Lemma which_errors_skip_retry_witness :
  result_of (run conversionFails plain)
  = Fail (NewError "size not supported" ErrorCodeConvertRequestFailed [])
  /\ (IsSkipRetryError (NewError "size not supported" ErrorCodeConvertRequestFailed [])
      = true
      \/ (exists request err,
            last (trace_of (run conversionFails plain))
            = Some (EvConvertImageRequest request (inl err))
            /\ NewError "size not supported" ErrorCodeConvertRequestFailed []
               = NewError err ErrorCodeConvertRequestFailed [])
      \/ (exists requestBody err,
            last (trace_of (run conversionFails plain))
            = Some (EvDoRequest requestBody (inl err))
            /\ NewError "size not supported" ErrorCodeConvertRequestFailed []
               = NewOpenAIError err ErrorCodeDoRequestFailed StatusInternalServerError)
      \/ (exists e0 mapping,
            last (trace_of (run conversionFails plain))
            = Some (EvResetStatusCode e0 mapping
                      (NewError "size not supported" ErrorCodeConvertRequestFailed [])))).
Proof.
  assert (H : result_of (run conversionFails plain)
              = Fail (NewError "size not supported" ErrorCodeConvertRequestFailed []))
    by reflexivity.
  split; [exact H|].
  exact (which_errors_skip_retry (world conversionFails) plain _ H).
Defined.

Lemma billed_tokens_are_zero_only_for_zero_images_witness :
  result_of (run healthy plain) = Done tt
  /\ exists request usage logContent,
      mappedRequest (trace_of (run healthy plain)) = Some request
      /\ quotaCalls (trace_of (run healthy plain)) = [(usage, logContent)]
      /\ (wrap_int64 (N request) ≠ 0 ->
          TotalTokens usage ≠ 0 /\ PromptTokens usage ≠ 0)
      /\ (TotalTokens usage = 0 \/ PromptTokens usage = 0 ->
          wrap_int64 (N request) = 0).
Proof.
  assert (H : result_of (run healthy plain) = Done tt) by reflexivity.
  split; [exact H|].
  exact (billed_tokens_are_zero_only_for_zero_images (world healthy) plain H).
Defined.

Lemma no_size_no_descriptor_witness :
  result_of (run healthy unsized) = Done tt
  /\ mappedRequest (trace_of (run healthy unsized)) = Some sizeless
  /\ Size sizeless = ""
  /\ (exists usage, quotaCalls (trace_of (run healthy unsized)) = [(usage, "")])
  /\ countEv isParseMultipartForm (trace_of (run healthy unsized)) = 0%nat.
Proof.
  assert (H1 : result_of (run healthy unsized) = Done tt) by reflexivity.
  assert (H2 : mappedRequest (trace_of (run healthy unsized)) = Some sizeless)
    by reflexivity.
  assert (H3 : Size sizeless = "") by reflexivity.
  split; [exact H1|]. split; [exact H2|]. split; [exact H3|].
  exact (no_size_no_descriptor (world healthy) unsized sizeless H1 H2 H3).
Defined.

(** The inbound request is not multipart; and a run that fails. *)
Lemma parse_failure_is_swallowed_witness :
  (countEv isFailedParse (trace_of (run healthy formless)) ≠ 0%nat
   /\ result_of (run healthy formless) = Done tt)
  /\ (result_of (run conversionFails formless)
      = Fail (NewError "size not supported" ErrorCodeConvertRequestFailed [])
      /\ countEv isParseMultipartForm (trace_of (run conversionFails formless))
         = 0%nat).
Proof.
  assert (H : countEv isFailedParse (trace_of (run healthy formless)) ≠ 0%nat)
    by (vm_compute; discriminate).
  assert (K : result_of (run conversionFails formless)
              = Fail (NewError "size not supported" ErrorCodeConvertRequestFailed []))
    by reflexivity.
  split; (split; [assumption|]).
  - exact (proj1 (proj1 (parse_failure_is_swallowed (world healthy) formless) H)).
  - exact (proj2 (parse_failure_is_swallowed (world conversionFails) formless) _ K).
Defined.

Example unparsed_form_descriptor :
  quotaCalls (trace_of (run healthy formless))
  = [({| PromptTokens := 2; CompletionTokens := 0; TotalTokens := 2 |},
      "大小 1024x1024, 品质 hd, 张数 2")].
Proof. vm_compute. reflexivity. Qed.

Lemma quality_is_hd_or_standard_witness :
  Quality sizeless ≠ "hd" /\ qualityOf sizeless = "standard".
Proof.
  assert (H : Quality sizeless ≠ "hd") by discriminate.
  split; [exact H|].
  exact (proj2 (proj2 (quality_is_hd_or_standard sizeless)) H).
Defined.

Lemma converted_body_never_reads_raw_body_witness :
  prepareRequest (world healthy) plain
  = (Done (request, adaptor healthy), plain, preparedTrace)
  /\ passThrough (world healthy) plain = false
  /\ countEv isGetRequestBody (trace_of (run healthy plain)) = 0%nat.
Proof.
  assert (H1 : prepareRequest (world healthy) plain
               = (Done (request, adaptor healthy), plain, preparedTrace))
    by reflexivity.
  assert (H2 : passThrough (world healthy) plain = false) by reflexivity.
  split; [exact H1|]. split; [exact H2|].
  exact (converted_body_never_reads_raw_body (world healthy) _ _ _ _ _ H1 H2).
Defined.

Lemma empty_override_set_sends_serialized_bytes_witness :
  prepareRequest (world healthy) unpatched
  = (Done (request, adaptor healthy), unpatched, preparedTrace)
  /\ passThrough (world healthy) unpatched = false
  /\ ConvertImageRequest (adaptor healthy) request unpatched
     = (inr (ConvValue [("prompt", "a cat")]), unpatched)
  /\ Marshal (world healthy) [("prompt", "a cat")] = inr serializedBody
  /\ size (ParamOverride (info unpatched)) = 0%nat
  /\ transportBodies (trace_of (run healthy unpatched)) = [serializedBody]
  /\ countEv isApplyParamOverride (trace_of (run healthy unpatched)) = 0%nat.
Proof.
  assert (H1 : prepareRequest (world healthy) unpatched
               = (Done (request, adaptor healthy), unpatched, preparedTrace))
    by reflexivity.
  assert (H2 : passThrough (world healthy) unpatched = false) by reflexivity.
  assert (H3 : ConvertImageRequest (adaptor healthy) request unpatched
               = (inr (ConvValue [("prompt", "a cat")]), unpatched)) by reflexivity.
  assert (H4 : Marshal (world healthy) [("prompt", "a cat")] = inr serializedBody)
    by reflexivity.
  assert (H5 : size (ParamOverride (info unpatched)) = 0%nat) by reflexivity.
  split; [exact H1|]. split; [exact H2|]. split; [exact H3|].
  split; [exact H4|]. split; [exact H5|].
  exact (empty_override_set_sends_serialized_bytes (world healthy)
           _ _ _ _ _ _ _ _ H1 H2 H3 H4 H5).
Defined.

(** A 200 response without a Content-Type header. *)
Lemma other_content_types_leave_flag_unset_witness :
  prepareRequest (world headerless) plain
  = (Done (request, adaptor headerless), plain, preparedTrace)
  /\ buildRequestBody (world headerless) (adaptor headerless) request plain
     = (Done patchedBody, plain, builtTrace)
  /\ DoRequest (adaptor headerless) patchedBody plain
     = (inr (RespHttp (Some jsonResponse)), plain)
  /\ StatusCode jsonResponse = StatusOK
  /\ IsStream (info plain) = false
  /\ Header jsonResponse !! "Content-Type" = None
  /\ exists i ret rest,
      trace_of (run headerless plain)
      = preparedTrace ++ builtTrace
        ++ [EvDoRequest patchedBody (inr (RespHttp (Some jsonResponse)));
            EvDoResponse (Some jsonResponse) i ret] ++ rest
      /\ IsStream i = false.
Proof.
  assert (H1 : prepareRequest (world headerless) plain
               = (Done (request, adaptor headerless), plain, preparedTrace))
    by reflexivity.
  assert (H2 : buildRequestBody (world headerless) (adaptor headerless) request plain
               = (Done patchedBody, plain, builtTrace)) by reflexivity.
  assert (H3 : DoRequest (adaptor headerless) patchedBody plain
               = (inr (RespHttp (Some jsonResponse)), plain)) by reflexivity.
  assert (H4 : StatusCode jsonResponse = StatusOK) by reflexivity.
  assert (H5 : IsStream (info plain) = false) by reflexivity.
  assert (H6 : Header jsonResponse !! "Content-Type" = None) by reflexivity.
  split; [exact H1|]. split; [exact H2|]. split; [exact H3|].
  split; [exact H4|]. split; [exact H5|]. split; [exact H6|].
  exact (other_content_types_leave_flag_unset (world headerless)
           _ _ _ _ _ _ _ _ _ _ H1 H2 H3 H4 H5 (or_intror H6)).
Defined.
Lemma total_size_is_exact_without_overflow_witness :
  - 2 ^ 63 <= sumSizes (fieldParts form "image[]") < 2 ^ 63
  /\ totalSizeOf (fieldParts form "image[]") = 8192.
Proof.
  assert (H : - 2 ^ 63 <= sumSizes (fieldParts form "image[]") < 2 ^ 63)
    by (split; [vm_compute; discriminate|vm_compute; reflexivity]).
  split; [exact H|].
  exact (proj1 (total_size_is_exact_without_overflow fmt _ H)).
Defined.

Lemma transport_is_called_once_witness :
  result_of (run healthy plain) = Done tt
  /\ length (transportBodies (trace_of (run healthy plain))) = 1%nat
  /\ countEv isDoResponse (trace_of (run healthy plain)) = 1%nat
  /\ countEv isInit (trace_of (run healthy plain)) = 1%nat.
Proof.
  assert (H : result_of (run healthy plain) = Done tt) by reflexivity.
  split; [exact H|].
  exact (proj2 (transport_is_called_once (world healthy) plain) H).
Defined.

Lemma adaptor_converts_the_mapped_copy_witness :
  countEv isConvertImageRequest (trace_of (run healthy plain)) ≠ 0%nat
  /\ exists imageReq copy request rest,
      trace_of (run healthy plain)
      = [EvInitChannelMeta; EvDeepCopy imageReq (inr copy);
         EvModelMappedHelper copy (request, None)] ++ rest
      /\ convertedRequests (trace_of (run healthy plain)) = [request].
Proof.
  assert (H : countEv isConvertImageRequest (trace_of (run healthy plain)) ≠ 0%nat)
    by (vm_compute; discriminate).
  split; [exact H|].
  exact (adaptor_converts_the_mapped_copy (world healthy) plain H).
Defined.
End ConcreteMore.
